(** * outline_vpn: the management client of an Outline VPN server

    A shallow embedding of [outline_vpn/outline_vpn.py].  The client is a
    thin layer over [requests]: every method builds one request, sends it,
    looks at the status code and at the decoded JSON body.  The embedding
    keeps that shape:

    - decoded JSON bodies are Python values ([pyval]); the dynamic
      operations the source applies to them ([in], [.get], iteration,
      truthiness) are functions that raise the exception Python raises;
    - the remote server and the transport are a transition function
      [transport], a variable of the development, so that every statement
      holds for every server;
    - methods live in a state-and-exception monad over a [world] that holds
      the server state and the log of every call made of the transport. *)

From Stdlib Require Import ZArith List String Ascii Bool Lia.
Import ListNotations.
Local Open Scope string_scope.
Local Open Scope Z_scope.

Set Warnings "-register-all".

(** ** Python values *)

(** What [response.json()] can produce, and what callers pass as arguments.
    A dict is kept as its list of items; decoded JSON objects have string
    keys.  A float is kept as the 64 bits of the double; a string as its
    UTF-8 bytes. *)
Inductive pyval : Type :=
| PyNone
| PyBool (b : bool)
| PyInt (z : Z)
| PyFloat (bits : Z)
| PyStr (s : string)
| PyList (l : list pyval)
| PyDict (d : list (string * pyval)).

(** The exceptions that can leave a method of the client. *)
Inductive exn : Type :=
| OutlineServerErrorException (msg : string)
| CertificateMismatch
| JSONDecodeError
| TypeError
| AttributeError
| ConnectionError.

(** Outcome of a Python expression: a value or a raised exception. *)
Inductive result (A : Type) : Type :=
| Ok (a : A)
| Raise (e : exn).
Arguments Ok {A} a.
Arguments Raise {A} e.

Definition rbind {A B} (r : result A) (k : A -> result B) : result B :=
  match r with
  | Ok a => k a
  | Raise e => Raise e
  end.

(** [d.get(k)] on a dict whose keys are strings, for a string [k]:
    the value, or [None] when the key is missing. *)
Fixpoint dict_get (d : list (string * pyval)) (k : string) : pyval :=
  match d with
  | [] => PyNone
  | (k', v) :: d' => if String.eqb k' k then v else dict_get d' k
  end.

(** [k in d] on a dict, for a string [k]. *)
Fixpoint dict_has (d : list (string * pyval)) (k : string) : bool :=
  match d with
  | [] => false
  | (k', _) :: d' => String.eqb k' k || dict_has d' k
  end.

(** [s in t] on two strings: [s] occurs in [t]. *)
Fixpoint is_substring (s t : string) : bool :=
  String.prefix s t ||
  match t with
  | EmptyString => false
  | String _ t' => is_substring s t'
  end.

Definition is_str (s : string) (v : pyval) : bool :=
  match v with
  | PyStr s' => String.eqb s' s
  | _ => false
  end.

(** [s in v] for a string literal [s]: key membership on a dict, element
    membership on a list, substring on a string; the other values are not
    containers and the test raises [TypeError]. *)
Definition py_contains (s : string) (v : pyval) : result bool :=
  match v with
  | PyDict d => Ok (dict_has d s)
  | PyList l => Ok (existsb (is_str s) l)
  | PyStr t => Ok (is_substring s t)
  | PyNone | PyBool _ | PyInt _ | PyFloat _ => Raise TypeError
  end.

(** [v.get(s)] for a string literal [s]: only dicts have the method. *)
Definition py_get (v : pyval) (s : string) : result pyval :=
  match v with
  | PyDict d => Ok (dict_get d s)
  | _ => Raise AttributeError
  end.

(** [v.get(k)] for a computed key [k].  The attribute is looked up first
    ([AttributeError] off dicts), then the key is hashed: lists and dicts
    are unhashable ([TypeError]); a hashable key that is not a string
    equals no key of a decoded JSON object. *)
Definition py_get_val (v k : pyval) : result pyval :=
  match v with
  | PyDict d =>
      match k with
      | PyStr s => Ok (dict_get d s)
      | PyNone | PyBool _ | PyInt _ | PyFloat _ => Ok PyNone
      | PyList _ | PyDict _ => Raise TypeError
      end
  | _ => Raise AttributeError
  end.

Definition chars (s : string) : list pyval :=
  map (fun c => PyStr (String c EmptyString)) (list_ascii_of_string s).

(** [for x in v]: the elements of a list, the keys of a dict, the
    characters of a string (one per byte here, which is exact on ASCII);
    anything else is not iterable. *)
Definition py_iter (v : pyval) : result (list pyval) :=
  match v with
  | PyList l => Ok l
  | PyDict d => Ok (map (fun kv => PyStr (fst kv)) d)
  | PyStr s => Ok (chars s)
  | PyNone | PyBool _ | PyInt _ | PyFloat _ => Raise TypeError
  end.

(** Truth value of [v] in a condition; the two float zeros, [0.0] and
    [-0.0], are false. *)
Definition py_truthy (v : pyval) : bool :=
  match v with
  | PyNone => false
  | PyBool b => b
  | PyInt z => negb (z =? 0)
  | PyFloat bits => negb ((bits =? 0) || (bits =? 2 ^ 63))
  | PyStr s => negb (String.eqb s "")
  | PyList l => match l with [] => false | _ => true end
  | PyDict d => match d with [] => false | _ => true end
  end.

(** ** The wire *)

Inductive http_method : Type := GET | POST | PUT | DELETE.

(** A URL is written in the source as an f-string.  Its literal pieces are
    kept as text and each formatted argument as the value that is
    formatted, in order: [f"{self.api_url}/access-keys/{key_id}"] is
    [[Lit api_url; Lit "/access-keys/"; Fmt key_id]]. *)
Inductive fpart : Type :=
| Lit (s : string)
| Fmt (v : pyval).

(** The keyword arguments of a [requests] call that carry data:
    [json=data], or [files={field: (None, value)}] (a multipart form). *)
Inductive payload : Type :=
| NoPayload
| JsonBody (data : pyval)
| FilesBody (fields : list (string * pyval)).

Record request : Type := mkRequest {
  req_method : http_method;
  req_url : list fpart;
  req_payload : payload;
  req_verify : bool
}.

(** What the client reads of a response: the status code and the decoded
    body, [None] when the body is not a JSON document (as the empty body
    of a 204), in which case [response.json()] raises. *)
Record response : Type := mkResponse {
  status_code : Z;
  body : option pyval
}.

(** The transport either hands back a response or raises
    [requests.ConnectionError] (no route, timeout, reset). *)
Inductive reply : Type :=
| Answer (r : response)
| Unreachable.

(** What the client asks of the outside: a call of [requests], a TLS
    probe. *)
Inductive event : Type :=
| EvHttp (r : request)
| EvTls (api_url : string).

Definition json (r : response) : result pyval :=
  match body r with
  | Some v => Ok v
  | None => Raise JSONDecodeError
  end.

Definition ascii_lower (c : ascii) : ascii :=
  let n := nat_of_ascii c in
  if (Nat.leb 65 n && Nat.leb n 90)%bool then ascii_of_nat (n + 32) else c.

Fixpoint lower (s : string) : string :=
  match s with
  | EmptyString => EmptyString
  | String c s' => String (ascii_lower c) (lower s')
  end.

(** ** Records of the client *)

(** [OutlineKey].  The dataclass annotates its fields ([key_id: int], ...)
    but nothing enforces the annotations: each field holds a Python
    value. *)
Record OutlineKey : Type := mkOutlineKey {
  key_id : pyval;
  name : pyval;
  password : pyval;
  port : pyval;
  method : pyval;
  access_url : pyval;
  used_bytes : pyval
}.

(** [outline_key.name = key_name] *)
Definition set_name (k : OutlineKey) (key_name : pyval) : OutlineKey :=
  mkOutlineKey (key_id k) key_name (password k) (port k) (method k)
    (access_url k) (used_bytes k).

Record OutlineVPN : Type := mkOutlineVPN {
  api_url : string
}.

(** ** The client *)

Section Client.

(** The remote side: a state and what it answers to a request.  Nothing is
    assumed of it. *)
Variable St : Type.
Variable transport : St -> request -> reply * St.

(** The fingerprint (hex digest of the DER encoding) of the certificate
    the server presents to a TLS connection to the host of a URL. *)
Variable presented_fingerprint : St -> string -> string.

Record world : Type := mkWorld {
  server : St;
  wire : list event
}.

(** Computations of the client: they may talk to the server and may
    raise.  The world survives an exception. *)
Definition M (A : Type) : Type := world -> result A * world.

Definition ret {A} (a : A) : M A := fun w => (Ok a, w).

Definition raise {A} (e : exn) : M A := fun w => (Raise e, w).

Definition bind {A B} (c : M A) (k : A -> M B) : M B :=
  fun w =>
    match c w with
    | (Ok a, w') => k a w'
    | (Raise e, w') => (Raise e, w')
    end.

Definition lift {A} (r : result A) : M A := fun w => (r, w).

Notation "x <- c ;; k" := (bind c (fun x => k))
  (at level 61, c at next level, right associativity).

(** [a and b], [a or b]: the right operand is evaluated only when the left
    one does not decide. *)
Definition and_then (a : bool) (b : M bool) : M bool :=
  if a then b else ret false.

Definition or_else (a : bool) (b : M bool) : M bool :=
  if a then ret true else b.

(** One call of [requests]: the call is logged, the server moves.  What
    the library does on the wire to answer one call (following a redirect,
    normalising the path) is part of [transport]. *)
Definition send (req : request) : M response :=
  fun w =>
    let (rep, s') := transport (server w) req in
    let w' := mkWorld s' (wire w ++ [EvHttp req]) in
    match rep with
    | Answer r => (Ok r, w')
    | Unreachable => (Raise ConnectionError, w')
    end.

Definition requests_get (url : list fpart) : M response :=
  send (mkRequest GET url NoPayload false).

Definition requests_post (url : list fpart) : M response :=
  send (mkRequest POST url NoPayload false).

Definition requests_put (url : list fpart) (p : payload) : M response :=
  send (mkRequest PUT url p false).

Definition requests_delete (url : list fpart) : M response :=
  send (mkRequest DELETE url NoPayload false).

(** Modelled from the spec: [outline_vpn.utils.check_ssl_fingerprint] is
    imported by the client and is not part of the file.  It opens one TLS
    connection to the host of the URL, takes the fingerprint of the
    certificate presented there and fails with [CertificateMismatch] when
    it differs from the expected one, letter case aside. *)
Definition check_ssl_fingerprint (url expected : string) : M unit :=
  fun w =>
    let w' := mkWorld (server w) (wire w ++ [EvTls url]) in
    if String.eqb (lower (presented_fingerprint (server w) url))
                  (lower expected)
    then (Ok tt, w')
    else (Raise CertificateMismatch, w').

(** [OutlineVPN.__init__]; [cert_sha256] defaults to [None], and the test
    [if cert_sha256:] also skips the empty string. *)
Definition init (url : string) (cert_sha256 : option string) : M OutlineVPN :=
  let self := mkOutlineVPN url in
  match cert_sha256 with
  | Some fp =>
      if negb (String.eqb fp "")
      then (_ <- check_ssl_fingerprint url fp ;; ret self)
      else ret self
  | None => ret self
  end.

Variable self : OutlineVPN.

Definition url_access_keys : list fpart :=
  [Lit (api_url self); Lit "/access-keys/"].
Definition url_metrics_transfer : list fpart :=
  [Lit (api_url self); Lit "/metrics/transfer"].
Definition url_key (id : pyval) : list fpart :=
  [Lit (api_url self); Lit "/access-keys/"; Fmt id].
Definition url_key_name (id : pyval) : list fpart :=
  [Lit (api_url self); Lit "/access-keys/"; Fmt id; Lit "/name"].
Definition url_key_data_limit (id : pyval) : list fpart :=
  [Lit (api_url self); Lit "/access-keys/"; Fmt id; Lit "/data-limit"].
Definition url_server : list fpart :=
  [Lit (api_url self); Lit "/server"].
Definition url_name : list fpart :=
  [Lit (api_url self); Lit "/name"].
Definition url_hostname : list fpart :=
  [Lit (api_url self); Lit "/server/hostname-for-access-keys"].
Definition url_metrics_enabled : list fpart :=
  [Lit (api_url self); Lit "/metrics/enabled"].
Definition url_port : list fpart :=
  [Lit (api_url self); Lit "/server/port-for-new-access-keys"].
Definition url_data_limit : list fpart :=
  [Lit (api_url self); Lit "/server/access-key-data-limit"].

(** The constructor call of [get_keys], arguments evaluated left to
    right:
    [OutlineKey(key_id=key.get("id"), ..., used_bytes=
       response_metrics.json().get("bytesTransferredByUserId")
                              .get(key.get("id")))]. *)
Definition listed_key (response_metrics : response) (key : pyval)
  : result OutlineKey :=
  rbind (py_get key "id") (fun k_id =>
  rbind (py_get key "name") (fun k_name =>
  rbind (py_get key "password") (fun k_password =>
  rbind (py_get key "port") (fun k_port =>
  rbind (py_get key "method") (fun k_method =>
  rbind (py_get key "accessUrl") (fun k_url =>
  rbind (json response_metrics) (fun metrics =>
  rbind (py_get metrics "bytesTransferredByUserId") (fun by_user =>
  rbind (py_get key "id") (fun join_id =>
  rbind (py_get_val by_user join_id) (fun k_used =>
  Ok (mkOutlineKey k_id k_name k_password k_port k_method k_url
        k_used))))))))))).

(** The loop of [get_keys]: [for key in ...: result.append(OutlineKey(...))]. *)
Fixpoint for_keys (response_metrics : response) (keys : list pyval)
  (acc : list OutlineKey) : result (list OutlineKey) :=
  match keys with
  | [] => Ok acc
  | key :: rest =>
      rbind (listed_key response_metrics key) (fun k =>
      for_keys response_metrics rest (acc ++ [k]))
  end.

Definition get_keys : M (list OutlineKey) :=
  response <- requests_get url_access_keys ;;
  found <- and_then (status_code response =? 200)
             (j <- lift (json response) ;;
              lift (py_contains "accessKeys" j)) ;;
  if found then
    response_metrics <- requests_get url_metrics_transfer ;;
    bad <- or_else (400 <=? status_code response_metrics)
             (j <- lift (json response_metrics) ;;
              c <- lift (py_contains "bytesTransferredByUserId" j) ;;
              ret (negb c)) ;;
    if bad then raise (OutlineServerErrorException "Unable to get metrics")
    else
      response_json <- lift (json response) ;;
      access_keys <- lift (py_get response_json "accessKeys") ;;
      keys <- lift (py_iter access_keys) ;;
      lift (for_keys response_metrics keys [])
  else raise (OutlineServerErrorException "Unable to retrieve keys").

(** The constructor call of [create_key], with [used_bytes=0]. *)
Definition created_key (key : pyval) : result OutlineKey :=
  rbind (py_get key "id") (fun k_id =>
  rbind (py_get key "name") (fun k_name =>
  rbind (py_get key "password") (fun k_password =>
  rbind (py_get key "port") (fun k_port =>
  rbind (py_get key "method") (fun k_method =>
  rbind (py_get key "accessUrl") (fun k_url =>
  Ok (mkOutlineKey k_id k_name k_password k_port k_method k_url
        (PyInt 0)))))))).

Definition delete_key (id : pyval) : M bool :=
  response <- requests_delete (url_key id) ;;
  ret (status_code response =? 204).

Definition rename_key (id new_name : pyval) : M bool :=
  let files := [("name", new_name)] in
  response <- requests_put (url_key_name id) (FilesBody files) ;;
  ret (status_code response =? 204).

Definition create_key (key_name : pyval) : M OutlineKey :=
  response <- requests_post url_access_keys ;;
  if status_code response =? 201 then
    key <- lift (json response) ;;
    outline_key <- lift (created_key key) ;;
    renamed <- and_then (py_truthy key_name)
                 (rename_key (key_id outline_key) key_name) ;;
    if renamed then ret (set_name outline_key key_name)
    else ret outline_key
  else raise (OutlineServerErrorException "Unable to create key").

Definition limit_data (limit_bytes : pyval) : pyval :=
  PyDict [("limit", PyDict [("bytes", limit_bytes)])].

Definition add_data_limit (id limit_bytes : pyval) : M bool :=
  let data := limit_data limit_bytes in
  response <- requests_put (url_key_data_limit id) (JsonBody data) ;;
  ret (status_code response =? 204).

Definition delete_data_limit (id : pyval) : M bool :=
  response <- requests_delete (url_key_data_limit id) ;;
  ret (status_code response =? 204).

Definition get_transferred_data : M pyval :=
  response <- requests_get url_metrics_transfer ;;
  bad <- or_else (400 <=? status_code response)
           (j <- lift (json response) ;;
            c <- lift (py_contains "bytesTransferredByUserId" j) ;;
            ret (negb c)) ;;
  if bad then raise (OutlineServerErrorException "Unable to get metrics")
  else lift (json response).

Definition get_server_information : M pyval :=
  response <- requests_get url_server ;;
  if negb (status_code response =? 200)
  then raise (OutlineServerErrorException
                "Unable to get information about the server")
  else lift (json response).

Definition set_server_name (new_name : pyval) : M bool :=
  let data := PyDict [("name", new_name)] in
  response <- requests_put url_name (JsonBody data) ;;
  ret (status_code response =? 204).

Definition set_hostname (hostname : pyval) : M bool :=
  let data := PyDict [("hostname", hostname)] in
  response <- requests_put url_hostname (JsonBody data) ;;
  ret (status_code response =? 204).

Definition get_metrics_status : M pyval :=
  response <- requests_get url_metrics_enabled ;;
  j <- lift (json response) ;;
  lift (py_get j "metricsEnabled").

Definition set_metrics_status (status : pyval) : M bool :=
  let data := PyDict [("metricsEnabled", status)] in
  response <- requests_put url_metrics_enabled (JsonBody data) ;;
  ret (status_code response =? 204).

Definition port_range_message : string :=
  "The requested port wasn't an integer from 1 through 65535, or the request had no port parameter.".

Definition port_in_use_message : string :=
  "The requested port was already in use by another service.".

Definition set_port_new_for_access_keys (new_port : pyval) : M bool :=
  let data := PyDict [("port", new_port)] in
  response <- requests_put url_port (JsonBody data) ;;
  if status_code response =? 400
  then raise (OutlineServerErrorException port_range_message)
  else if status_code response =? 409
  then raise (OutlineServerErrorException port_in_use_message)
  else ret (status_code response =? 204).

Definition set_data_limit_for_all_keys (limit_bytes : pyval) : M bool :=
  let data := limit_data limit_bytes in
  response <- requests_put url_data_limit (JsonBody data) ;;
  ret (status_code response =? 204).

Definition delete_data_limit_for_all_keys : M bool :=
  response <- requests_delete url_data_limit ;;
  ret (status_code response =? 204).

(** *** Callers *)

(** The methods that answer with a boolean and make one request. *)
Inductive toggle : Type :=
| DeleteKey (id : pyval)
| RenameKey (id new_name : pyval)
| AddDataLimit (id limit_bytes : pyval)
| DeleteDataLimit (id : pyval)
| SetServerName (new_name : pyval)
| SetHostname (hostname : pyval)
| SetMetricsStatus (status : pyval)
| SetDataLimitForAllKeys (limit_bytes : pyval)
| DeleteDataLimitForAllKeys.

Definition toggle_call (t : toggle) : M bool :=
  match t with
  | DeleteKey id => delete_key id
  | RenameKey id new_name => rename_key id new_name
  | AddDataLimit id limit_bytes => add_data_limit id limit_bytes
  | DeleteDataLimit id => delete_data_limit id
  | SetServerName new_name => set_server_name new_name
  | SetHostname hostname => set_hostname hostname
  | SetMetricsStatus status => set_metrics_status status
  | SetDataLimitForAllKeys limit_bytes =>
      set_data_limit_for_all_keys limit_bytes
  | DeleteDataLimitForAllKeys => delete_data_limit_for_all_keys
  end.

(** The request of each of them, as the table of endpoints has it. *)
Definition toggle_request (t : toggle) : request :=
  match t with
  | DeleteKey id => mkRequest DELETE (url_key id) NoPayload false
  | RenameKey id new_name =>
      mkRequest PUT (url_key_name id) (FilesBody [("name", new_name)]) false
  | AddDataLimit id limit_bytes =>
      mkRequest PUT (url_key_data_limit id)
        (JsonBody (PyDict [("limit", PyDict [("bytes", limit_bytes)])])) false
  | DeleteDataLimit id =>
      mkRequest DELETE (url_key_data_limit id) NoPayload false
  | SetServerName new_name =>
      mkRequest PUT url_name (JsonBody (PyDict [("name", new_name)])) false
  | SetHostname hostname =>
      mkRequest PUT url_hostname
        (JsonBody (PyDict [("hostname", hostname)])) false
  | SetMetricsStatus status =>
      mkRequest PUT url_metrics_enabled
        (JsonBody (PyDict [("metricsEnabled", status)])) false
  | SetDataLimitForAllKeys limit_bytes =>
      mkRequest PUT url_data_limit
        (JsonBody (PyDict [("limit", PyDict [("bytes", limit_bytes)])])) false
  | DeleteDataLimitForAllKeys =>
      mkRequest DELETE url_data_limit NoPayload false
  end.

(** Every method of a constructed client, and a caller that runs one and
    drops what it returns. *)
Inductive api_call : Type :=
| Toggle (t : toggle)
| GetKeys
| CreateKey (key_name : pyval)
| GetTransferredData
| GetServerInformation
| GetMetricsStatus
| SetPortNewForAccessKeys (new_port : pyval).

Definition forget {A} (c : M A) : M unit := _ <- c ;; ret tt.

Definition perform (c : api_call) : M unit :=
  match c with
  | Toggle t => forget (toggle_call t)
  | GetKeys => forget get_keys
  | CreateKey key_name => forget (create_key key_name)
  | GetTransferredData => forget get_transferred_data
  | GetServerInformation => forget get_server_information
  | GetMetricsStatus => forget get_metrics_status
  | SetPortNewForAccessKeys new_port =>
      forget (set_port_new_for_access_keys new_port)
  end.

End Client.

Arguments mkWorld {St} server wire.
Arguments server {St} w.
Arguments wire {St} w.

(** Number of TLS probes among the events of a log. *)
Fixpoint tls_count (l : list event) : nat :=
  match l with
  | [] => 0%nat
  | EvTls _ :: l' => S (tls_count l')
  | EvHttp _ :: l' => tls_count l'
  end.

(** ** Servers to run the client against *)

(** A server that answers from a script, whatever is asked, and is
    unreachable once the script is over. *)
Definition scripted (s : list reply) (_ : request) : reply * list reply :=
  match s with
  | [] => (Unreachable, [])
  | r :: s' => (r, s')
  end.

(** A server whose certificate has one fixed fingerprint. *)
Definition pinned (fp : string) (_ : list reply) (_ : string) : string := fp.

(** The server of the documented example: base URL
    [https://vpn.example:443/SecretPath], one key, 1000 bytes. *)
Definition example_url : string := "https://vpn.example:443/SecretPath".

Definition example_keys_body : pyval :=
  PyDict [("accessKeys",
     PyList [PyDict [("id", PyStr "1"); ("name", PyStr "a");
                     ("password", PyStr "p"); ("port", PyInt 8388);
                     ("method", PyStr "aes-128-gcm");
                     ("accessUrl", PyStr "ss://...")]])].

Definition example_metrics_body : pyval :=
  PyDict [("bytesTransferredByUserId", PyDict [("1", PyInt 1000)])].

Definition example_server (s : unit) (r : request) : reply * unit :=
  match req_method r, req_url r with
  | GET, [Lit base; Lit path] =>
      if String.eqb base example_url then
        if String.eqb path "/access-keys/"
        then (Answer (mkResponse 200 (Some example_keys_body)), s)
        else if String.eqb path "/metrics/transfer"
        then (Answer (mkResponse 200 (Some example_metrics_body)), s)
        else (Answer (mkResponse 404 None), s)
      else (Unreachable, s)
  | _, _ => (Answer (mkResponse 404 None), s)
  end.

(** The errors of the dynamic operations on values, as opposed to the
    errors the client raises itself. *)
Definition dynamic_error (e : exn) : Prop :=
  e = JSONDecodeError \/ e = TypeError \/ e = AttributeError.

(** Where a request leaves the world: the log grows by it, the server
    has moved. *)
Definition sent {St} (w : world St) (req : request) (s' : St) : world St :=
  mkWorld s' (wire w ++ [EvHttp req]).

(** A computation that puts nothing but HTTP requests on the wire. *)
Definition http_only {St A} (c : world St -> result A * world St) : Prop :=
  forall w, exists reqs, wire (snd (c w)) = (wire w ++ map EvHttp reqs)%list.

(** The three decisions of [get_keys] as functions of the two responses:
    the test on the keys response, the test on the metrics response (also
    the test of [get_transferred_data]), and the list that is built. *)
Definition keys_check (response : response) : result bool :=
  if status_code response =? 200
  then rbind (json response) (py_contains "accessKeys")
  else Ok false.

Definition metrics_check (response_metrics : response) : result bool :=
  if 400 <=? status_code response_metrics then Ok true
  else rbind (json response_metrics) (fun j =>
       rbind (py_contains "bytesTransferredByUserId" j) (fun c =>
       Ok (negb c))).

Definition collect_keys (response response_metrics : response)
  : result (list OutlineKey) :=
  rbind (json response) (fun response_json =>
  rbind (py_get response_json "accessKeys") (fun access_keys =>
  rbind (py_iter access_keys) (fun keys =>
  for_keys response_metrics keys []))).

(** ** What the documentation promises, in its own words *)

Definition keys_error : exn :=
  OutlineServerErrorException "Unable to retrieve keys".
Definition metrics_error : exn :=
  OutlineServerErrorException "Unable to get metrics".
Definition create_error : exn :=
  OutlineServerErrorException "Unable to create key".

(** The body of a response is a JSON object with field [f]. *)
Definition has_field (f : string) (r : response) : Prop :=
  exists d, body r = Some (PyDict d) /\ dict_has d f = true.

(** The transferred bytes joined to an identifier: the entry of the
    mapping under that identifier, absent ([None]) when there is none. *)
Definition joined_bytes (by_user : list (string * pyval)) (id : pyval)
  : pyval :=
  match id with
  | PyStr s => dict_get by_user s
  | _ => PyNone
  end.

(** An entry of the keys response as an [OutlineKey]: every field as the
    entry has it, the bytes joined by identifier. *)
Definition key_of_entry (by_user d : list (string * pyval)) : OutlineKey :=
  mkOutlineKey (dict_get d "id") (dict_get d "name") (dict_get d "password")
    (dict_get d "port") (dict_get d "method") (dict_get d "accessUrl")
    (joined_bytes by_user (dict_get d "id")).

(** An [OutlineKey] made of one entry of the keys response and of the
    mapping of the metrics response. *)
Definition listed_from (metrics : response) (key : pyval) (k : OutlineKey)
  : Prop :=
  exists d mb by_user,
    key = PyDict d /\
    body metrics = Some (PyDict mb) /\
    dict_get mb "bytesTransferredByUserId" = PyDict by_user /\
    k = key_of_entry by_user d.

(** Values [in] can be asked of: objects, arrays and strings.  The other
    decoded values ([null], numbers, booleans) are no containers. *)
Definition is_container (v : pyval) : bool :=
  match v with
  | PyDict _ | PyList _ | PyStr _ => true
  | _ => false
  end.

(** Values that can be the key of a dict lookup. *)
Definition hashable (v : pyval) : bool :=
  match v with
  | PyList _ | PyDict _ => false
  | _ => true
  end.

(** An [OutlineKey] whose six fields of the key are those of a JSON
    object. *)
Definition verbatim (d : list (string * pyval)) (k : OutlineKey) : Prop :=
  key_id k = dict_get d "id" /\
  name k = dict_get d "name" /\
  password k = dict_get d "password" /\
  port k = dict_get d "port" /\
  method k = dict_get d "method" /\
  access_url k = dict_get d "accessUrl".

(** The inputs the statements below are run on. *)
Definition demo_client : OutlineVPN := mkOutlineVPN example_url.

Definition world_of (script : list reply) : world (list reply) :=
  mkWorld script [].

Definition keys_ok : response := mkResponse 200 (Some example_keys_body).
Definition metrics_ok : response :=
  mkResponse 200 (Some example_metrics_body).
Definition no_content : response := mkResponse 204 None.
Definition empty_object : response := mkResponse 200 (Some (PyDict [])).
Definition created : response :=
  mkResponse 201
    (Some (PyDict [("id", PyStr "7"); ("name", PyStr "");
                   ("password", PyStr "p"); ("port", PyInt 8388);
                   ("method", PyStr "chacha20-ietf-poly1305");
                   ("accessUrl", PyStr "ss://...")])).

(** The error contract of "list keys" as documented: a call succeeds on
    status 200; either error is raised exactly in its documented case. *)
Definition list_keys_errors_as_stated (keys_response metrics_response : response)
  (outcome : result (list OutlineKey)) : Prop :=
  (outcome = Raise keys_error <->
     status_code keys_response <> 200 \/
     ~ has_field "accessKeys" keys_response) /\
  (outcome = Raise metrics_error <->
     (status_code keys_response = 200 /\
      has_field "accessKeys" keys_response) /\
     (status_code metrics_response <> 200 \/
      ~ has_field "bytesTransferredByUserId" metrics_response)).

(** "Get transferred data" as documented: the body on 200 with the
    expected field, the metrics error otherwise. *)
Definition transferred_data_as_stated (r : response) (outcome : result pyval)
  : Prop :=
  (status_code r = 200 /\ has_field "bytesTransferredByUserId" r ->
     exists v, body r = Some v /\ outcome = Ok v) /\
  (~ (status_code r = 200 /\ has_field "bytesTransferredByUserId" r) ->
     outcome = Raise metrics_error).

(** "Get metrics status" as documented: the boolean field of the body, and
    a failure when the body lacks the field. *)
Definition metrics_status_as_stated (r : response) (outcome : result pyval)
  : Prop :=
  (forall d b, body r = Some (PyDict d) ->
     dict_has d "metricsEnabled" = true ->
     dict_get d "metricsEnabled" = PyBool b -> outcome = Ok (PyBool b)) /\
  (~ has_field "metricsEnabled" r -> exists e, outcome = Raise e).

(** ** Which requests a call makes *)

(** The first request of each method. *)
Definition first_request (self : OutlineVPN) (c : api_call) : request :=
  match c with
  | Toggle t => toggle_request self t
  | GetKeys => mkRequest GET (url_access_keys self) NoPayload false
  | CreateKey _ => mkRequest POST (url_access_keys self) NoPayload false
  | GetTransferredData =>
      mkRequest GET (url_metrics_transfer self) NoPayload false
  | GetServerInformation => mkRequest GET (url_server self) NoPayload false
  | GetMetricsStatus =>
      mkRequest GET (url_metrics_enabled self) NoPayload false
  | SetPortNewForAccessKeys new_port =>
      mkRequest PUT (url_port self)
        (JsonBody (PyDict [("port", new_port)])) false
  end.

(** The requests a call can have made when it is over: its first
    request, and a second one only for [get_keys] (the metrics) and for
    [create_key] (the rename of the key the server has just made). *)
Definition call_trace (self : OutlineVPN) (c : api_call)
  (reqs : list request) : Prop :=
  reqs = [first_request self c] \/
  match c with
  | GetKeys =>
      reqs = [first_request self c;
              mkRequest GET (url_metrics_transfer self) NoPayload false]
  | CreateKey key_name =>
      exists id,
        reqs = [first_request self c;
                mkRequest PUT (url_key_name self id)
                  (FilesBody [("name", key_name)]) false]
  | _ => False
  end.

(** The methods that read. *)
Definition read_call (c : api_call) : bool :=
  match c with
  | GetKeys | GetTransferredData | GetServerInformation
  | GetMetricsStatus => true
  | _ => false
  end.

(** An entry of [accessKeys] the loop of [get_keys] can turn into a key:
    an object whose [id] can be looked up. *)
Definition listable (e : pyval) : Prop :=
  exists d, e = PyDict d /\ hashable (dict_get d "id") = true.

(** More answers to run the client on. *)
Definition numeric_id_keys : response :=
  mkResponse 200
    (Some (PyDict [("accessKeys",
       PyList [PyDict [("id", PyInt 1); ("name", PyStr "a")]])])).



Definition server_info : response :=
  mkResponse 200 (Some (PyDict [("name", PyStr "My Server");
                                ("portForNewAccessKeys", PyInt 1234)])).

(** * Properties *)

(** ** Dicts *)

Lemma dict_get_missing : forall d k,
  dict_has d k = false -> dict_get d k = PyNone.
Proof.
  induction d as [|[k' v] d IH]; intros k H; simpl in *.
  - reflexivity.
  - apply orb_false_iff in H. destruct H as [Hk Hd].
    rewrite Hk. now apply IH.
Qed.

Lemma joined_bytes_missing : forall by_user s,
  dict_has by_user s = false -> joined_bytes by_user (PyStr s) = PyNone.
Proof. intros; simpl; now apply dict_get_missing. Qed.

Lemma py_get_ok : forall v s x,
  py_get v s = Ok x -> exists d, v = PyDict d /\ x = dict_get d s.
Proof.
  intros v s x H; destruct v; simpl in H; try discriminate.
  injection H as <-. eauto.
Qed.

Lemma py_get_val_ok : forall v k x,
  py_get_val v k = Ok x ->
  exists d, v = PyDict d /\ x = joined_bytes d k.
Proof.
  intros v k x H; destruct v; simpl in H; try discriminate.
  destruct k; try discriminate; injection H as <-; eauto.
Qed.

Lemma json_raises : forall r e, json r = Raise e -> dynamic_error e.
Proof.
  unfold json, dynamic_error; intros r e H.
  destruct (body r); inversion H; auto.
Qed.

Lemma py_get_raises : forall v s e, py_get v s = Raise e -> dynamic_error e.
Proof.
  unfold dynamic_error; intros v s e H.
  destruct v; inversion H; auto.
Qed.

Lemma py_get_val_raises : forall v k e,
  py_get_val v k = Raise e -> dynamic_error e.
Proof.
  unfold dynamic_error; intros v k e H.
  destruct v; simpl in H; try (inversion H; now auto).
  destruct k; inversion H; auto.
Qed.

Lemma py_contains_raises : forall s v e,
  py_contains s v = Raise e -> dynamic_error e.
Proof.
  unfold dynamic_error; intros s v e H.
  destruct v; inversion H; auto.
Qed.

Lemma contains_ok_container : forall s v b,
  py_contains s v = Ok b -> is_container v = true.
Proof. intros s v b H; destruct v; simpl in *; auto; discriminate. Qed.

Lemma contains_scalar : forall s v,
  is_container v = false -> py_contains s v = Raise TypeError.
Proof. intros s v H; destruct v; simpl in *; auto; discriminate. Qed.

Lemma with_container : forall s (o : option pyval) b,
  (exists v, o = Some v /\ is_container v = true /\
     py_contains s v = Ok b) <->
  (exists v, o = Some v /\ py_contains s v = Ok b).
Proof.
  intros s o b; split.
  - intros (v & Hv & _ & H); eauto.
  - intros (v & Hv & H). exists v; repeat split; auto.
    now apply contains_ok_container in H.
Qed.

Lemma py_iter_raises : forall v e, py_iter v = Raise e -> dynamic_error e.
Proof.
  unfold dynamic_error; intros v e H.
  destruct v; inversion H; auto.
Qed.

Lemma dynamic_error_not_server : forall m,
  ~ dynamic_error (OutlineServerErrorException m).
Proof. intros m [H|[H|H]]; discriminate. Qed.

Lemma rbind_ok : forall A B (r : result A) (k : A -> result B) b,
  rbind r k = Ok b -> exists a, r = Ok a /\ k a = Ok b.
Proof. intros A B [a|e] k b H; simpl in H; [eauto | discriminate]. Qed.

Lemma rbind_raises : forall A B (r : result A) (k : A -> result B) e,
  rbind r k = Raise e ->
  r = Raise e \/ exists a, r = Ok a /\ k a = Raise e.
Proof.
  intros A B [a|e'] k e H; simpl in H; [eauto | left].
  now injection H as ->.
Qed.

(** ** The client against an arbitrary server *)

Section Properties.

Variable St : Type.
Variable transport : St -> request -> reply * St.
Variable presented_fingerprint : St -> string -> string.

Abbreviation W := (world St).
Abbreviation get_request url := (mkRequest GET url NoPayload false).

Lemma send_eq : forall req (w : W),
  send St transport req w =
  match transport (server w) req with
  | (Answer r, s') => (Ok r, sent w req s')
  | (Unreachable, s') => (Raise ConnectionError, sent w req s')
  end.
Proof.
  intros req w; unfold send, sent.
  destruct (transport (server w) req) as [[r|] s']; reflexivity.
Qed.

(** *** The loop of [get_keys] *)

Lemma listed_key_ok : forall rm key k,
  listed_key rm key = Ok k -> listed_from rm key k.
Proof.
  unfold listed_key, listed_from; intros rm key k H.
  apply rbind_ok in H; destruct H as (k_id & Hid & H).
  apply py_get_ok in Hid; destruct Hid as (d & -> & ->).
  simpl in H.
  apply rbind_ok in H; destruct H as (mj & Hj & H).
  apply rbind_ok in H; destruct H as (bu & Hbu & H).
  apply rbind_ok in H; destruct H as (used & Hused & H).
  injection H as <-.
  apply py_get_ok in Hbu; destruct Hbu as (mb & -> & ->).
  apply py_get_val_ok in Hused; destruct Hused as (by_user & Hb & ->).
  unfold json in Hj; destruct (body rm) as [v|] eqn:Eb; try discriminate.
  injection Hj as ->.
  exists d, mb, by_user; repeat split; auto.
Qed.

Lemma listed_key_raises : forall rm key e,
  listed_key rm key = Raise e -> dynamic_error e.
Proof.
  unfold listed_key; intros rm key e H.
  repeat match type of H with
  | rbind (py_get _ _) _ = Raise _ =>
      apply rbind_raises in H;
      destruct H as [H | (? & _ & H)]; [now apply py_get_raises in H|]
  | rbind (json _) _ = Raise _ =>
      apply rbind_raises in H;
      destruct H as [H | (? & _ & H)]; [now apply json_raises in H|]
  | rbind (py_get_val _ _) _ = Raise _ =>
      apply rbind_raises in H;
      destruct H as [H | (? & _ & H)]; [now apply py_get_val_raises in H|]
  end.
  discriminate.
Qed.

Lemma for_keys_ok : forall rm keys acc res,
  for_keys rm keys acc = Ok res ->
  exists ks, res = (acc ++ ks)%list /\ Forall2 (listed_from rm) keys ks.
Proof.
  intros rm keys; induction keys as [|key rest IH]; intros acc res H.
  - simpl in H; injection H as <-.
    exists []; split; [now rewrite app_nil_r | constructor].
  - simpl in H. apply rbind_ok in H; destruct H as (k & Hk & H).
    apply IH in H; destruct H as (ks & -> & Hks).
    exists (k :: ks); split.
    + now rewrite <- app_assoc.
    + constructor; [now apply listed_key_ok | exact Hks].
Qed.

Lemma for_keys_raises : forall rm keys acc e,
  for_keys rm keys acc = Raise e -> dynamic_error e.
Proof.
  intros rm keys; induction keys as [|key rest IH]; intros acc e H.
  - discriminate.
  - simpl in H. apply rbind_raises in H.
    destruct H as [H | (k & _ & H)].
    + now apply listed_key_raises in H.
    + now apply IH in H.
Qed.


(** *** [get_keys] and [get_transferred_data], request by request *)

Variable self : OutlineVPN.

Abbreviation keys_request := (get_request (url_access_keys self)).
Abbreviation metrics_request := (get_request (url_metrics_transfer self)).

Lemma get_keys_run : forall w : W,
  get_keys St transport self w =
  match transport (server w) keys_request with
  | (Unreachable, s1) => (Raise ConnectionError, sent w keys_request s1)
  | (Answer r1, s1) =>
      let w1 := sent w keys_request s1 in
      match keys_check r1 with
      | Raise e => (Raise e, w1)
      | Ok false => (Raise keys_error, w1)
      | Ok true =>
          match transport s1 metrics_request with
          | (Unreachable, s2) =>
              (Raise ConnectionError, sent w1 metrics_request s2)
          | (Answer r2, s2) =>
              let w2 := sent w1 metrics_request s2 in
              match metrics_check r2 with
              | Raise e => (Raise e, w2)
              | Ok true => (Raise metrics_error, w2)
              | Ok false => (collect_keys r1 r2, w2)
              end
          end
      end
  end.
Proof.
  intros w.
  unfold get_keys, requests_get, bind, and_then, or_else, lift, ret, raise,
    keys_check, metrics_check, collect_keys.
  rewrite send_eq.
  destruct (transport (server w) keys_request) as [[r1|] s1]; [|reflexivity].
  destruct (status_code r1 =? 200); [|reflexivity].
  destruct (json r1) as [v1|e1]; simpl; [|reflexivity].
  destruct (py_contains "accessKeys" v1) as [[|]|e]; simpl; try reflexivity.
  rewrite send_eq; simpl server.
  destruct (transport s1 metrics_request) as [[r2|] s2]; [|reflexivity].
  destruct (400 <=? status_code r2); [reflexivity|].
  destruct (json r2) as [v2|e2]; simpl; [|reflexivity].
  destruct (py_contains "bytesTransferredByUserId" v2) as [[|]|e]; simpl;
    try reflexivity.
  destruct (py_get v1 "accessKeys") as [a|e]; simpl; [|reflexivity].
  destruct (py_iter a) as [keys|e]; reflexivity.
Qed.

Lemma get_keys_ok : forall (w : W) result w',
  get_keys St transport self w = (Ok result, w') ->
  exists r1 s1 r2 s2 kd entries,
    transport (server w) keys_request = (Answer r1, s1) /\
    transport s1 metrics_request = (Answer r2, s2) /\
    w' = sent (sent w keys_request s1) metrics_request s2 /\
    body r1 = Some (PyDict kd) /\
    py_iter (dict_get kd "accessKeys") = Ok entries /\
    Forall2 (listed_from r2) entries result.
Proof.
  intros w result w' H. rewrite get_keys_run in H.
  destruct (transport (server w) keys_request) as [[r1|] s1] eqn:T1;
    [|discriminate].
  cbv zeta in H.
  destruct (keys_check r1) as [[|]|e]; try discriminate.
  destruct (transport s1 metrics_request) as [[r2|] s2] eqn:T2;
    [|discriminate].
  destruct (metrics_check r2) as [[|]|e]; try discriminate.
  injection H as Hc <-.
  unfold collect_keys in Hc.
  apply rbind_ok in Hc; destruct Hc as (j & Hj & Hc).
  apply rbind_ok in Hc; destruct Hc as (a & Ha & Hc).
  apply rbind_ok in Hc; destruct Hc as (keys & Hkeys & Hc).
  apply py_get_ok in Ha; destruct Ha as (kd & -> & ->).
  apply for_keys_ok in Hc; destruct Hc as (ks & -> & Hks).
  unfold json in Hj; destruct (body r1) as [v|] eqn:B1; [|discriminate].
  injection Hj as ->.
  exists r1, s1, r2, s2, kd, keys. repeat split; auto.
Qed.

(** *** [create_key], request by request *)

Abbreviation create_request :=
  (mkRequest POST (url_access_keys self) NoPayload false).
Abbreviation rename_request id new_name :=
  (mkRequest PUT (url_key_name self id) (FilesBody [("name", new_name)])
     false).

Lemma create_key_run : forall key_name (w : W),
  create_key St transport self key_name w =
  match transport (server w) create_request with
  | (Unreachable, s1) => (Raise ConnectionError, sent w create_request s1)
  | (Answer r1, s1) =>
      let w1 := sent w create_request s1 in
      if status_code r1 =? 201 then
        match rbind (json r1) created_key with
        | Raise e => (Raise e, w1)
        | Ok k =>
            if py_truthy key_name then
              let req := rename_request (key_id k) key_name in
              match transport s1 req with
              | (Unreachable, s2) => (Raise ConnectionError, sent w1 req s2)
              | (Answer r2, s2) =>
                  (Ok (if status_code r2 =? 204 then set_name k key_name
                       else k),
                   sent w1 req s2)
              end
            else (Ok k, w1)
        end
      else (Raise create_error, w1)
  end.
Proof.
  intros key_name w.
  unfold create_key, rename_key, requests_post, requests_put, bind, and_then,
    lift, ret, raise.
  rewrite send_eq.
  destruct (transport (server w) create_request) as [[r1|] s1];
    [|reflexivity].
  cbv zeta. destruct (status_code r1 =? 201); [|reflexivity].
  destruct (json r1) as [v|e]; simpl; [|reflexivity].
  destruct (created_key v) as [k|e]; simpl; [|reflexivity].
  destruct (py_truthy key_name); [|reflexivity].
  rewrite send_eq; simpl server.
  destruct (transport s1 (rename_request (key_id k) key_name))
    as [[r2|] s2]; [|reflexivity].
  destruct (status_code r2 =? 204); reflexivity.
Qed.

Lemma created_key_ok : forall key k,
  created_key key = Ok k ->
  exists d, key = PyDict d /\
    k = mkOutlineKey (dict_get d "id") (dict_get d "name")
          (dict_get d "password") (dict_get d "port") (dict_get d "method")
          (dict_get d "accessUrl") (PyInt 0).
Proof.
  intros key k H; destruct key; simpl in H; try discriminate.
  injection H as <-. eauto.
Qed.

(** *** The one-request methods *)

Lemma toggle_call_run : forall t (w : W),
  toggle_call St transport self t w =
  match transport (server w) (toggle_request self t) with
  | (Unreachable, s1) =>
      (Raise ConnectionError, sent w (toggle_request self t) s1)
  | (Answer r, s1) =>
      (Ok (status_code r =? 204), sent w (toggle_request self t) s1)
  end.
Proof.
  intros t w.
  destruct t; simpl;
    unfold delete_key, rename_key, add_data_limit, delete_data_limit,
      set_server_name, set_hostname, set_metrics_status,
      set_data_limit_for_all_keys, delete_data_limit_for_all_keys,
      requests_put, requests_delete, limit_data, bind, ret;
    rewrite send_eq;
    match goal with
    | |- context [transport (server w) ?q] =>
        destruct (transport (server w) q) as [[r|] s1]; reflexivity
    end.
Qed.

Abbreviation port_request new_port :=
  (mkRequest PUT (url_port self) (JsonBody (PyDict [("port", new_port)]))
     false).

Lemma set_port_run : forall new_port (w : W),
  set_port_new_for_access_keys St transport self new_port w =
  match transport (server w) (port_request new_port) with
  | (Unreachable, s1) =>
      (Raise ConnectionError, sent w (port_request new_port) s1)
  | (Answer r, s1) =>
      (if status_code r =? 400
       then Raise (OutlineServerErrorException port_range_message)
       else if status_code r =? 409
       then Raise (OutlineServerErrorException port_in_use_message)
       else Ok (status_code r =? 204),
       sent w (port_request new_port) s1)
  end.
Proof.
  intros new_port w.
  unfold set_port_new_for_access_keys, requests_put, bind, ret, raise.
  rewrite send_eq.
  destruct (transport (server w) (port_request new_port)) as [[r|] s1];
    [|reflexivity].
  destruct (status_code r =? 400); [reflexivity|].
  destruct (status_code r =? 409); reflexivity.
Qed.

Lemma get_transferred_data_run : forall w : W,
  get_transferred_data St transport self w =
  match transport (server w) metrics_request with
  | (Unreachable, s1) => (Raise ConnectionError, sent w metrics_request s1)
  | (Answer r, s1) =>
      (match metrics_check r with
       | Raise e => Raise e
       | Ok true => Raise metrics_error
       | Ok false => json r
       end, sent w metrics_request s1)
  end.
Proof.
  intros w.
  unfold get_transferred_data, requests_get, bind, or_else, lift, ret, raise,
    metrics_check.
  rewrite send_eq.
  destruct (transport (server w) metrics_request) as [[r|] s1];
    [|reflexivity].
  destruct (400 <=? status_code r); [reflexivity|].
  destruct (json r) as [v|e]; simpl; [|reflexivity].
  destruct (py_contains "bytesTransferredByUserId" v) as [[|]|e];
    reflexivity.
Qed.

Abbreviation server_request := (get_request (url_server self)).

Lemma get_server_information_run : forall w : W,
  get_server_information St transport self w =
  match transport (server w) server_request with
  | (Unreachable, s1) => (Raise ConnectionError, sent w server_request s1)
  | (Answer r, s1) =>
      (if status_code r =? 200 then json r
       else Raise (OutlineServerErrorException
                     "Unable to get information about the server"),
       sent w server_request s1)
  end.
Proof.
  intros w.
  unfold get_server_information, requests_get, bind, lift, raise.
  rewrite send_eq.
  destruct (transport (server w) server_request) as [[r|] s1];
    [|reflexivity].
  destruct (status_code r =? 200); reflexivity.
Qed.

Abbreviation enabled_request := (get_request (url_metrics_enabled self)).

Lemma get_metrics_status_run : forall w : W,
  get_metrics_status St transport self w =
  match transport (server w) enabled_request with
  | (Unreachable, s1) => (Raise ConnectionError, sent w enabled_request s1)
  | (Answer r, s1) =>
      (rbind (json r) (fun j => py_get j "metricsEnabled"),
       sent w enabled_request s1)
  end.
Proof.
  intros w.
  unfold get_metrics_status, requests_get, bind, lift.
  rewrite send_eq.
  destruct (transport (server w) enabled_request) as [[r|] s1];
    [|reflexivity].
  destruct (json r) as [v|e]; reflexivity.
Qed.

(** *** The two tests on responses *)

Lemma keys_check_false : forall r,
  keys_check r = Ok false <->
  status_code r <> 200 \/
  exists v, body r = Some v /\ py_contains "accessKeys" v = Ok false.
Proof.
  intros r; unfold keys_check, json.
  destruct (Z.eqb_spec (status_code r) 200) as [E|E].
  - destruct (body r) as [v|]; simpl; split.
    + intros H; right; eauto.
    + intros [H|(v' & Hv & H)]; [contradiction|]. now injection Hv as ->.
    + discriminate.
    + intros [H|(v' & Hv & H)]; [contradiction | discriminate].
  - split; auto.
Qed.

Lemma keys_check_true : forall r,
  keys_check r = Ok true <->
  status_code r = 200 /\
  exists v, body r = Some v /\ py_contains "accessKeys" v = Ok true.
Proof.
  intros r; unfold keys_check, json.
  destruct (Z.eqb_spec (status_code r) 200) as [E|E].
  - destruct (body r) as [v|]; simpl; split.
    + intros H; split; eauto.
    + intros (_ & v' & Hv & H). now injection Hv as ->.
    + discriminate.
    + intros (_ & v' & Hv & H). discriminate.
  - split; [discriminate | intros (H & _); contradiction].
Qed.

Lemma keys_check_raises : forall r e,
  keys_check r = Raise e -> dynamic_error e.
Proof.
  intros r e; unfold keys_check.
  destruct (status_code r =? 200); [|discriminate].
  intros H; apply rbind_raises in H; destruct H as [H|(v & _ & H)].
  - now apply json_raises in H.
  - now apply py_contains_raises in H.
Qed.

Lemma metrics_check_true : forall r,
  metrics_check r = Ok true <->
  400 <= status_code r \/
  exists v, body r = Some v /\
    py_contains "bytesTransferredByUserId" v = Ok false.
Proof.
  intros r; unfold metrics_check, json.
  destruct (Z.leb_spec 400 (status_code r)) as [E|E]; [split; auto|].
  destruct (body r) as [v|] eqn:B; simpl;
    [destruct (py_contains "bytesTransferredByUserId" v) as [[|]|e] eqn:P;
     simpl|];
    (split;
     [ intros H; try discriminate; right; eauto
     | intros [H|(v' & Hv & H)]; [lia | congruence] ]).
Qed.

Lemma metrics_check_false : forall r,
  metrics_check r = Ok false <->
  status_code r < 400 /\
  exists v, body r = Some v /\
    py_contains "bytesTransferredByUserId" v = Ok true.
Proof.
  intros r; unfold metrics_check, json.
  destruct (Z.leb_spec 400 (status_code r)) as [E|E];
    [split; [discriminate | intros (H & _); lia]|].
  destruct (body r) as [v|] eqn:B; simpl;
    [destruct (py_contains "bytesTransferredByUserId" v) as [[|]|e] eqn:P;
     simpl|];
    (split;
     [ intros H; try discriminate; split; eauto
     | intros (_ & v' & Hv & H); congruence ]).
Qed.

Lemma metrics_check_raises : forall r e,
  metrics_check r = Raise e -> dynamic_error e.
Proof.
  intros r e; unfold metrics_check.
  destruct (400 <=? status_code r); [discriminate|].
  intros H; apply rbind_raises in H; destruct H as [H|(v & _ & H)].
  - now apply json_raises in H.
  - apply rbind_raises in H; destruct H as [H|(c & _ & H)].
    + now apply py_contains_raises in H.
    + discriminate.
Qed.

Lemma collect_keys_raises : forall r1 r2 e,
  collect_keys r1 r2 = Raise e -> dynamic_error e.
Proof.
  intros r1 r2 e; unfold collect_keys; intros H.
  apply rbind_raises in H; destruct H as [H|(j & _ & H)];
    [now apply json_raises in H|].
  apply rbind_raises in H; destruct H as [H|(a & _ & H)];
    [now apply py_get_raises in H|].
  apply rbind_raises in H; destruct H as [H|(keys & _ & H)];
    [now apply py_iter_raises in H|].
  now apply for_keys_raises in H.
Qed.

(** *** Listing keys: which error, when *)

(** C2 (as the code has it).  Given the answer to [GET access-keys],
    "list keys" raises "Unable to retrieve keys" exactly when its status
    is not 200, or it is 200 and the body decodes to an object, array or
    string that does not contain [accessKeys]; given also the answer to
    [GET metrics/transfer], it raises "Unable to get metrics" exactly when
    the keys answer is a 200 whose object, array or string contains
    [accessKeys] and the metrics answer has a status of 400 or more, or a
    smaller one and a body that decodes to an object, array or string that
    does not contain [bytesTransferredByUserId].  Where the code reads a
    body that is none of these, neither error is raised: a body that is
    not JSON raises the decoder's error, and a body that decodes to
    [null], a number or a boolean raises [TypeError]. *)
Theorem get_keys_errors : forall (w : W) r1 s1,
  transport (server w) keys_request = (Answer r1, s1) ->
  (fst (get_keys St transport self w) = Raise keys_error <->
     status_code r1 <> 200 \/
     exists v, body r1 = Some v /\ is_container v = true /\
       py_contains "accessKeys" v = Ok false) /\
  (forall r2 s2,
     transport s1 metrics_request = (Answer r2, s2) ->
     (fst (get_keys St transport self w) = Raise metrics_error <->
        (status_code r1 = 200 /\
         exists v, body r1 = Some v /\ is_container v = true /\
           py_contains "accessKeys" v = Ok true) /\
        (400 <= status_code r2 \/
         exists v, body r2 = Some v /\ is_container v = true /\
           py_contains "bytesTransferredByUserId" v = Ok false))) /\
  (status_code r1 = 200 -> body r1 = None ->
     fst (get_keys St transport self w) = Raise JSONDecodeError) /\
  (forall v, status_code r1 = 200 -> body r1 = Some v ->
     is_container v = false ->
     fst (get_keys St transport self w) = Raise TypeError) /\
  (forall r2 s2,
     transport s1 metrics_request = (Answer r2, s2) ->
     (status_code r1 = 200 /\
      exists v, body r1 = Some v /\ is_container v = true /\
        py_contains "accessKeys" v = Ok true) ->
     status_code r2 < 400 ->
     (body r2 = None ->
        fst (get_keys St transport self w) = Raise JSONDecodeError) /\
     (forall v, body r2 = Some v -> is_container v = false ->
        fst (get_keys St transport self w) = Raise TypeError)).
Proof.
  intros w r1 s1 T1.
  setoid_rewrite with_container.
  rewrite <- keys_check_false.
  rewrite get_keys_run, T1. cbv zeta.
  split; [|split; [|split; [|split]]].
  - (* the keys error against the test on the keys answer *)
    split; [|intros ->; reflexivity].
    destruct (keys_check r1) as [[|]|e] eqn:K; auto; simpl; intros H.
    + destruct (transport s1 metrics_request) as [[r2|] s2];
        [|discriminate].
      destruct (metrics_check r2) as [[|]|e] eqn:Mc; simpl in H;
        try discriminate.
      * apply collect_keys_raises in H.
        now apply dynamic_error_not_server in H.
      * injection H as ->. apply metrics_check_raises in Mc.
        now apply dynamic_error_not_server in Mc.
    + injection H as ->. apply keys_check_raises in K.
      now apply dynamic_error_not_server in K.
  - (* the metrics error against both tests *)
    intros r2 s2 T2.
    rewrite <- keys_check_true, <- metrics_check_true.
    split.
    + destruct (keys_check r1) as [[|]|e] eqn:K; simpl; intros H;
        try discriminate.
      * rewrite T2 in H.
        destruct (metrics_check r2) as [[|]|e] eqn:Mc; simpl in H; auto.
        -- apply collect_keys_raises in H.
           now apply dynamic_error_not_server in H.
        -- injection H as ->. apply metrics_check_raises in Mc.
           now apply dynamic_error_not_server in Mc.
      * injection H as ->. apply keys_check_raises in K.
        now apply dynamic_error_not_server in K.
    + intros [-> Hm]. rewrite T2, Hm. reflexivity.
  - intros E1 B1. unfold keys_check, json. rewrite B1.
    apply Z.eqb_eq in E1. rewrite E1. reflexivity.
  - intros v E1 B1 Hv. unfold keys_check, json. rewrite B1.
    apply Z.eqb_eq in E1. rewrite E1. simpl.
    now rewrite (contains_scalar "accessKeys" v Hv).
  - intros r2 s2 T2 K E2. apply keys_check_true in K. rewrite K, T2.
    unfold metrics_check, json. apply Z.leb_gt in E2. rewrite E2.
    split.
    + intros B2. now rewrite B2.
    + intros v B2 Hv. rewrite B2. simpl.
      now rewrite (contains_scalar "bytesTransferredByUserId" v Hv).
Qed.

(** *** What goes on the wire *)

Lemma tls_count_app : forall l l',
  tls_count (l ++ l') = (tls_count l + tls_count l')%nat.
Proof.
  induction l as [|[r|u] l IH]; intros l'; simpl; auto.
Qed.

Lemma tls_count_http : forall reqs, tls_count (map EvHttp reqs) = 0%nat.
Proof. induction reqs; simpl; auto. Qed.

Lemma http_only_tls_count : forall A (c : M St A),
  http_only c -> forall w, tls_count (wire (snd (c w))) = tls_count (wire w).
Proof.
  intros A c H w. destruct (H w) as (reqs & ->).
  rewrite tls_count_app, tls_count_http. lia.
Qed.

Lemma forget_snd : forall A (c : M St A) (w : W),
  snd (forget St c w) = snd (c w).
Proof.
  intros A c w; unfold forget, bind, ret.
  destruct (c w) as [[a|e] w']; reflexivity.
Qed.

Lemma http_only_forget : forall A (c : M St A),
  http_only c -> http_only (forget St c).
Proof.
  intros A c H w. rewrite forget_snd. apply H.
Qed.

Ltac one_request run :=
  intros w; rewrite run;
  match goal with
  | |- context [transport (server w) ?q] =>
      destruct (transport (server w) q) as [[r|] s1];
      exists [q]; reflexivity
  end.

Lemma http_only_toggle : forall t,
  http_only (toggle_call St transport self t).
Proof. intros t. one_request toggle_call_run. Qed.

Lemma http_only_set_port : forall new_port,
  http_only (set_port_new_for_access_keys St transport self new_port).
Proof. intros new_port. one_request set_port_run. Qed.

Lemma http_only_get_transferred_data :
  http_only (get_transferred_data St transport self).
Proof. one_request get_transferred_data_run. Qed.

Lemma http_only_get_server_information :
  http_only (get_server_information St transport self).
Proof. one_request get_server_information_run. Qed.

Lemma http_only_get_metrics_status :
  http_only (get_metrics_status St transport self).
Proof. one_request get_metrics_status_run. Qed.

Lemma http_only_get_keys : http_only (get_keys St transport self).
Proof.
  intros w; rewrite get_keys_run.
  destruct (transport (server w) keys_request) as [[r1|] s1];
    [|exists [keys_request]; reflexivity].
  cbv zeta.
  destruct (keys_check r1) as [[|]|e];
    try (exists [keys_request]; reflexivity).
  destruct (transport s1 metrics_request) as [[r2|] s2];
    [destruct (metrics_check r2) as [[|]|e]|];
    exists [keys_request; metrics_request]; simpl;
    now rewrite <- app_assoc.
Qed.

Lemma http_only_create_key : forall key_name,
  http_only (create_key St transport self key_name).
Proof.
  intros key_name w; rewrite create_key_run.
  destruct (transport (server w) create_request) as [[r1|] s1];
    [|exists [create_request]; reflexivity].
  cbv zeta.
  destruct (status_code r1 =? 201);
    [|exists [create_request]; reflexivity].
  destruct (rbind (json r1) created_key) as [k|e];
    [|exists [create_request]; reflexivity].
  destruct (py_truthy key_name);
    [|exists [create_request]; reflexivity].
  destruct (transport s1 (rename_request (key_id k) key_name))
    as [[r2|] s2];
    exists [create_request; rename_request (key_id k) key_name]; simpl;
    now rewrite <- app_assoc.
Qed.

Lemma http_only_perform : forall c, http_only (perform St transport self c).
Proof.
  intros [t| |key_name| | | |new_port]; simpl; apply http_only_forget.
  - apply http_only_toggle.
  - apply http_only_get_keys.
  - apply http_only_create_key.
  - apply http_only_get_transferred_data.
  - apply http_only_get_server_information.
  - apply http_only_get_metrics_status.
  - apply http_only_set_port.
Qed.

(** *** Creating a key *)

(** C3.  A key returned by "create key" has [used_bytes] 0; whatever the
    outcome, no request of the call goes to the metrics endpoint, so its
    state cannot matter; a status other than 201 raises "Unable to create
    key"; and a 201 with a JSON object, no name requested, does return the
    key. *)
Theorem create_key_used_bytes_zero : forall key_name (w : W),
  (forall k w',
     create_key St transport self key_name w = (Ok k, w') ->
     used_bytes k = PyInt 0) /\
  (exists reqs,
     wire (snd (create_key St transport self key_name w))
       = (wire w ++ map EvHttp reqs)%list /\
     Forall (fun q => req_url q <> url_metrics_transfer self) reqs) /\
  (forall r s1,
     transport (server w) create_request = (Answer r, s1) ->
     status_code r <> 201 ->
     create_key St transport self key_name w
       = (Raise create_error, sent w create_request s1)) /\
  (forall r s1 d,
     transport (server w) create_request = (Answer r, s1) ->
     status_code r = 201 -> body r = Some (PyDict d) ->
     py_truthy key_name = false ->
     exists k,
       create_key St transport self key_name w
         = (Ok k, sent w create_request s1) /\
       used_bytes k = PyInt 0).
Proof.
  intros key_name w. rewrite create_key_run.
  split; [|split; [|split]].
  - intros k w' H.
    destruct (transport (server w) create_request) as [[r1|] s1];
      [|discriminate].
    cbv zeta in H. destruct (status_code r1 =? 201); [|discriminate].
    destruct (rbind (json r1) created_key) as [k0|e] eqn:K; [|discriminate].
    apply rbind_ok in K; destruct K as (v & _ & K).
    apply created_key_ok in K; destruct K as (d & _ & ->).
    destruct (py_truthy key_name).
    + simpl in H.
      destruct (transport s1 _) as [[r2|] s2]; [|discriminate].
      injection H as <- _. destruct (status_code r2 =? 204); reflexivity.
    + now injection H as <- _.
  - assert (Hc : req_url create_request <> url_metrics_transfer self)
      by (simpl; unfold url_access_keys, url_metrics_transfer;
          intros E; discriminate).
    destruct (transport (server w) create_request) as [[r1|] s1];
      [|exists [create_request]; split; [reflexivity | auto]].
    cbv zeta. destruct (status_code r1 =? 201);
      [|exists [create_request]; split; [reflexivity | auto]].
    destruct (rbind (json r1) created_key) as [k0|e];
      [|exists [create_request]; split; [reflexivity | auto]].
    destruct (py_truthy key_name);
      [|exists [create_request]; split; [reflexivity | auto]].
    assert (Hr : req_url (rename_request (key_id k0) key_name)
                 <> url_metrics_transfer self)
      by (simpl; unfold url_key_name, url_metrics_transfer;
          intros E; discriminate).
    destruct (transport s1 _) as [[r2|] s2];
      exists [create_request; rename_request (key_id k0) key_name];
      (split; [simpl; now rewrite <- app_assoc | auto]).
  - intros r s1 T E. rewrite T. cbv zeta.
    apply Z.eqb_neq in E. now rewrite E.
  - intros r s1 d T E B Hn. rewrite T. cbv zeta.
    apply Z.eqb_eq in E. rewrite E. unfold json; rewrite B; simpl.
    rewrite Hn. eexists; split; reflexivity.
Qed.

(** C4.  With a name requested, a 201 carrying a JSON object and an answer
    to the rename request, "create key" returns a key whose name is the
    requested one when the rename got 204 and the one the server sent
    otherwise; nothing is raised, and the other fields are those of the
    object either way. *)
Theorem create_key_name : forall key_name (w : W) r1 s1 d r2 s2,
  py_truthy key_name = true ->
  transport (server w) create_request = (Answer r1, s1) ->
  status_code r1 = 201 ->
  body r1 = Some (PyDict d) ->
  transport s1 (rename_request (dict_get d "id") key_name)
    = (Answer r2, s2) ->
  exists k,
    create_key St transport self key_name w
      = (Ok k, sent (sent w create_request s1)
                 (rename_request (dict_get d "id") key_name) s2) /\
    (status_code r2 = 204 -> name k = key_name) /\
    (status_code r2 <> 204 -> name k = dict_get d "name") /\
    key_id k = dict_get d "id" /\
    password k = dict_get d "password" /\
    port k = dict_get d "port" /\
    method k = dict_get d "method" /\
    access_url k = dict_get d "accessUrl" /\
    used_bytes k = PyInt 0.
Proof.
  intros key_name w r1 s1 d r2 s2 Hn T1 E1 B1 T2.
  rewrite create_key_run, T1. cbv zeta.
  apply Z.eqb_eq in E1. rewrite E1.
  unfold json; rewrite B1; simpl. rewrite Hn, T2.
  eexists; split; [reflexivity|].
  destruct (Z.eqb_spec (status_code r2) 204) as [E|E]; simpl;
    repeat split; auto; intros; contradiction.
Qed.

(** *** The default port *)

(** C5.  "Set default port" raises a server error that mentions the range
    1 through 65535 on 400 and one that mentions the port being in use on
    409; it returns [True] exactly on 204 and [False] on every other
    status. *)
Theorem set_port_outcomes : forall new_port (w : W) r s1,
  transport (server w) (port_request new_port) = (Answer r, s1) ->
  let out :=
    fst (set_port_new_for_access_keys St transport self new_port w) in
  (status_code r = 400 ->
     exists msg, out = Raise (OutlineServerErrorException msg) /\
       is_substring "1 through 65535" msg = true) /\
  (status_code r = 409 ->
     exists msg, out = Raise (OutlineServerErrorException msg) /\
       is_substring "already in use" msg = true) /\
  (out = Ok true <-> status_code r = 204) /\
  (status_code r <> 400 -> status_code r <> 409 -> status_code r <> 204 ->
     out = Ok false).
Proof.
  intros new_port w r s1 T out. subst out.
  rewrite set_port_run, T. simpl fst.
  split; [|split; [|split]].
  - intros E; rewrite E; simpl.
    exists port_range_message; split; reflexivity.
  - intros E; rewrite E; simpl.
    exists port_in_use_message; split; reflexivity.
  - destruct (Z.eqb_spec (status_code r) 400) as [E4|E4];
      [split; [discriminate | lia]|].
    destruct (Z.eqb_spec (status_code r) 409) as [E9|E9];
      [split; [discriminate | lia]|].
    destruct (Z.eqb_spec (status_code r) 204) as [E|E]; split; auto.
    + discriminate.
    + contradiction.
  - intros E4 E9 E.
    apply Z.eqb_neq in E4, E9, E. now rewrite E4, E9, E.
Qed.

(** *** The boolean convention *)

(** C6.  Each of delete key, rename key, set and clear a key's data limit,
    set server name, set hostname, set metrics status, set and clear the
    data limit of all keys, on any answer of the server, raises nothing and
    returns a boolean that is [True] if and only if the status is 204. *)
Theorem toggle_true_iff_204 : forall t (w : W) r s1,
  transport (server w) (toggle_request self t) = (Answer r, s1) ->
  exists b,
    toggle_call St transport self t w
      = (Ok b, sent w (toggle_request self t) s1) /\
    (b = true <-> status_code r = 204) /\
    (b = false <-> status_code r <> 204).
Proof.
  intros t w r s1 T. rewrite toggle_call_run, T.
  exists (status_code r =? 204); split; [reflexivity|].
  destruct (Z.eqb_spec (status_code r) 204) as [E|E]; repeat split; auto;
    try discriminate; intros; contradiction.
Qed.

(** *** Construction and the certificate *)

(** C7.  Constructed with an expected fingerprint that is not the one of
    the certificate presented (letter case aside), the client raises
    [CertificateMismatch] and the only thing it has put on the wire is the
    TLS probe: no management request.  Construction probes once when a
    fingerprint is supplied and not at all otherwise, and no method of a
    constructed client probes again. *)
Theorem init_checks_fingerprint_once :
  (forall url fp (w : W),
     fp <> "" ->
     lower (presented_fingerprint (server w) url) <> lower fp ->
     init St presented_fingerprint url (Some fp) w
       = (Raise CertificateMismatch,
          mkWorld (server w) (wire w ++ [EvTls url]))) /\
  (forall url fp (w : W),
     fp <> "" ->
     lower (presented_fingerprint (server w) url) = lower fp ->
     init St presented_fingerprint url (Some fp) w
       = (Ok (mkOutlineVPN url),
          mkWorld (server w) (wire w ++ [EvTls url]))) /\
  (forall url cert_sha256 (w : W),
     tls_count (wire (snd (init St presented_fingerprint url cert_sha256 w)))
     = (tls_count (wire w) +
        match cert_sha256 with
        | Some fp => if String.eqb fp "" then 0 else 1
        | None => 0
        end)%nat) /\
  (forall c (w : W),
     tls_count (wire (snd (perform St transport self c w)))
     = tls_count (wire w)).
Proof.
  split; [|split; [|split]].
  - intros url fp w Hfp Hne. unfold init, check_ssl_fingerprint, bind, ret.
    apply String.eqb_neq in Hfp, Hne. rewrite Hfp. simpl.
    rewrite Hne. reflexivity.
  - intros url fp w Hfp He. unfold init, check_ssl_fingerprint, bind, ret.
    apply String.eqb_neq in Hfp. apply String.eqb_eq in He.
    rewrite Hfp. simpl. rewrite He. reflexivity.
  - intros url [fp|] w; unfold init, check_ssl_fingerprint, bind, ret;
      [|simpl; lia].
    destruct (String.eqb fp ""); simpl; [lia|].
    destruct (String.eqb _ _); simpl; rewrite tls_count_app; reflexivity.
  - intros c w. apply http_only_tls_count, http_only_perform.
Qed.

(** *** Reading metrics *)

(** C8 (as the code has it).  Given the answer to [GET metrics/transfer],
    "get transferred data" raises "Unable to get metrics" exactly when the
    status is 400 or more, or it is smaller and the body decodes to an
    object, array or string that does not contain
    [bytesTransferredByUserId]; on a smaller status with a decoded body
    that contains the field it returns that body, whole.  On a smaller
    status it raises the decoder's error when the body is not JSON, and
    [TypeError] when the body decodes to [null], a number or a boolean. *)
Theorem get_transferred_data_outcomes : forall (w : W) r s1,
  transport (server w) metrics_request = (Answer r, s1) ->
  let out := fst (get_transferred_data St transport self w) in
  (out = Raise metrics_error <->
     400 <= status_code r \/
     exists v, body r = Some v /\ is_container v = true /\
       py_contains "bytesTransferredByUserId" v = Ok false) /\
  (forall v, status_code r < 400 -> body r = Some v ->
     py_contains "bytesTransferredByUserId" v = Ok true -> out = Ok v) /\
  (status_code r < 400 -> body r = None -> out = Raise JSONDecodeError) /\
  (forall v, status_code r < 400 -> body r = Some v ->
     is_container v = false -> out = Raise TypeError).
Proof.
  intros w r s1 T out. subst out.
  setoid_rewrite with_container.
  rewrite get_transferred_data_run, T. simpl fst.
  split; [|split; [|split]].
  - rewrite <- metrics_check_true.
    destruct (metrics_check r) as [[|]|e] eqn:Mc; split; auto;
      try discriminate; intros H.
    + apply json_raises in H. now apply dynamic_error_not_server in H.
    + injection H as ->. apply metrics_check_raises in Mc.
      now apply dynamic_error_not_server in Mc.
  - intros v E B C.
    assert (Mc : metrics_check r = Ok false)
      by (apply metrics_check_false; eauto).
    rewrite Mc. unfold json. now rewrite B.
  - intros E B. unfold metrics_check, json. rewrite B.
    apply Z.leb_gt in E. now rewrite E.
  - intros v E B Hv. unfold metrics_check, json. rewrite B.
    apply Z.leb_gt in E. rewrite E. simpl.
    now rewrite (contains_scalar "bytesTransferredByUserId" v Hv).
Qed.

(** C9 (as the code has it).  Given the answer to [GET metrics/enabled],
    whatever its status, "get metrics status" returns what the JSON object
    of the body holds under [metricsEnabled]: the boolean when there is
    one, and [None], not a failure, when the object lacks the field.  It
    fails only on a body that cannot be decoded or that is not an
    object. *)
Theorem get_metrics_status_outcomes : forall (w : W) r s1,
  transport (server w) enabled_request = (Answer r, s1) ->
  let out := fst (get_metrics_status St transport self w) in
  (forall d, body r = Some (PyDict d) ->
     out = Ok (dict_get d "metricsEnabled")) /\
  (forall d, body r = Some (PyDict d) ->
     dict_has d "metricsEnabled" = false -> out = Ok PyNone) /\
  (body r = None -> out = Raise JSONDecodeError) /\
  (forall v, body r = Some v -> (forall d, v <> PyDict d) ->
     out = Raise AttributeError).
Proof.
  intros w r s1 T out. subst out.
  rewrite get_metrics_status_run, T. simpl fst. unfold json.
  split; [|split; [|split]].
  - intros d B. now rewrite B.
  - intros d B Hm. rewrite B. simpl.
    now rewrite (dict_get_missing _ _ Hm).
  - intros B. now rewrite B.
  - intros v B Hv. rewrite B. simpl.
    destruct v; try reflexivity. now destruct (Hv d).
Qed.

(** *** Well-formed answers give a list *)

Lemma dict_get_has : forall d k x,
  dict_get d k = PyDict x -> dict_has d k = true.
Proof.
  intros d k x H. destruct (dict_has d k) eqn:E; auto.
  apply dict_get_missing in E. congruence.
Qed.

Lemma listed_key_total : forall rm mb by_user d,
  body rm = Some (PyDict mb) ->
  dict_get mb "bytesTransferredByUserId" = PyDict by_user ->
  hashable (dict_get d "id") = true ->
  listed_key rm (PyDict d) = Ok (key_of_entry by_user d).
Proof.
  intros rm mb by_user d B Hbu Hh.
  unfold listed_key, json, key_of_entry. rewrite B. simpl. rewrite Hbu.
  destruct (dict_get d "id"); simpl in *; try discriminate; reflexivity.
Qed.

Lemma for_keys_total : forall rm mb by_user ds acc,
  body rm = Some (PyDict mb) ->
  dict_get mb "bytesTransferredByUserId" = PyDict by_user ->
  Forall (fun d => hashable (dict_get d "id") = true) ds ->
  for_keys rm (map PyDict ds) acc
    = Ok (acc ++ map (key_of_entry by_user) ds)%list.
Proof.
  intros rm mb by_user ds acc B Hbu Hds; revert acc.
  induction Hds as [|d ds Hd Hds IH]; intros acc; simpl.
  - now rewrite app_nil_r.
  - rewrite (listed_key_total rm mb by_user d B Hbu Hd). simpl.
    rewrite IH. now rewrite <- app_assoc.
Qed.

Lemma get_keys_returns : forall (w : W) r1 s1 r2 s2 kd ds mb by_user,
  transport (server w) keys_request = (Answer r1, s1) ->
  transport s1 metrics_request = (Answer r2, s2) ->
  status_code r1 = 200 ->
  body r1 = Some (PyDict kd) ->
  dict_get kd "accessKeys" = PyList (map PyDict ds) ->
  Forall (fun d => hashable (dict_get d "id") = true) ds ->
  status_code r2 < 400 ->
  body r2 = Some (PyDict mb) ->
  dict_get mb "bytesTransferredByUserId" = PyDict by_user ->
  get_keys St transport self w
    = (Ok (map (key_of_entry by_user) ds),
       sent (sent w keys_request s1) metrics_request s2).
Proof.
  intros w r1 s1 r2 s2 kd ds mb by_user T1 T2 E1 B1 Hl Hds E2 B2 Hbu.
  rewrite get_keys_run, T1. cbv zeta.
  assert (K : keys_check r1 = Ok true).
  { apply keys_check_true; split; auto.
    exists (PyDict kd); split; auto. simpl. f_equal.
    destruct (dict_has kd "accessKeys") eqn:E; auto.
    apply dict_get_missing in E. congruence. }
  assert (Mc : metrics_check r2 = Ok false).
  { apply metrics_check_false; split; auto.
    exists (PyDict mb); split; auto. simpl. f_equal.
    now apply dict_get_has in Hbu. }
  rewrite K, T2. cbv zeta. rewrite Mc.
  unfold collect_keys, json. rewrite B1. simpl. rewrite Hl. simpl.
  now rewrite (for_keys_total r2 mb by_user ds [] B2 Hbu Hds).
Qed.

End Properties.

(** ** Listings and records, over every server *)

(** C1.  A "list keys" call that returns has got an answer to both
    requests, and its result has one [OutlineKey] per entry of
    [accessKeys], in order, made of that entry and of the bytes the
    metrics mapping holds under the entry's identifier; conversely,
    well-formed answers do give that list.  An identifier missing from the
    mapping gives [None].  On the documented example the result is the one
    key of id "1" with 1000 bytes used. *)
Theorem get_keys_joins_metrics :
  (forall St transport self (w : world St) result w',
     get_keys St transport self w = (Ok result, w') ->
     exists r1 s1 r2 s2 kd entries,
       transport (server w)
         (mkRequest GET (url_access_keys self) NoPayload false)
         = (Answer r1, s1) /\
       transport s1
         (mkRequest GET (url_metrics_transfer self) NoPayload false)
         = (Answer r2, s2) /\
       body r1 = Some (PyDict kd) /\
       py_iter (dict_get kd "accessKeys") = Ok entries /\
       List.length result = List.length entries /\
       Forall2 (listed_from r2) entries result) /\
  (forall St transport self (w : world St) r1 s1 r2 s2 kd ds mb by_user,
     transport (server w)
       (mkRequest GET (url_access_keys self) NoPayload false)
       = (Answer r1, s1) ->
     transport s1
       (mkRequest GET (url_metrics_transfer self) NoPayload false)
       = (Answer r2, s2) ->
     status_code r1 = 200 ->
     body r1 = Some (PyDict kd) ->
     dict_get kd "accessKeys" = PyList (map PyDict ds) ->
     Forall (fun d => hashable (dict_get d "id") = true) ds ->
     status_code r2 < 400 ->
     body r2 = Some (PyDict mb) ->
     dict_get mb "bytesTransferredByUserId" = PyDict by_user ->
     fst (get_keys St transport self w)
       = Ok (map (key_of_entry by_user) ds)) /\
  (forall by_user s,
     dict_has by_user s = false ->
     joined_bytes by_user (PyStr s) = PyNone) /\
  fst (get_keys unit example_server demo_client (mkWorld tt []))
    = Ok [mkOutlineKey (PyStr "1") (PyStr "a") (PyStr "p") (PyInt 8388)
            (PyStr "aes-128-gcm") (PyStr "ss://...") (PyInt 1000)].
Proof.
  split; [|split; [|split]].
  - intros St transport self w result w' H.
    apply get_keys_ok in H.
    destruct H as (r1 & s1 & r2 & s2 & kd & entries
                   & T1 & T2 & _ & B1 & Hi & Hf).
    exists r1, s1, r2, s2, kd, entries. repeat split; auto.
    symmetry. eapply Forall2_length; eauto.
  - intros St transport self w r1 s1 r2 s2 kd ds mb by_user
      T1 T2 E1 B1 Hl Hds E2 B2 Hbu.
    now rewrite (get_keys_returns St transport self w r1 s1 r2 s2 kd ds mb
                   by_user T1 T2 E1 B1 Hl Hds E2 B2 Hbu).
  - apply joined_bytes_missing.
  - reflexivity.
Qed.

Lemma get_keys_joins_metrics_witness :
  exists r2 entries,
    List.length entries = 1%nat /\
    Forall2 (listed_from r2) entries
      [mkOutlineKey (PyStr "1") (PyStr "a") (PyStr "p") (PyInt 8388)
         (PyStr "aes-128-gcm") (PyStr "ss://...") (PyInt 1000)].
Proof.
  destruct (proj1 get_keys_joins_metrics unit example_server demo_client
              (mkWorld tt []) _ _ eq_refl)
    as (r1 & s1 & r2 & s2 & kd & entries & _ & _ & _ & _ & Hl & Hf).
  exists r2, entries. split; [now rewrite <- Hl | exact Hf].
Defined.

Lemma list_keys_errors_as_stated_fails :
  ~ list_keys_errors_as_stated keys_ok no_content
      (fst (get_keys (list reply) scripted demo_client
              (world_of [Answer keys_ok; Answer no_content]))).
Proof.
  intros [_ [_ H]].
  assert (E : fst (get_keys (list reply) scripted demo_client
                     (world_of [Answer keys_ok; Answer no_content]))
              = Raise metrics_error).
  { apply H. split.
    - split; [reflexivity|].
      eexists; split; reflexivity.
    - left. discriminate. }
  discriminate E.
Qed.

Lemma get_keys_errors_witness :
  fst (get_keys (list reply) scripted demo_client
         (world_of [Answer keys_ok; Answer (mkResponse 500 None)]))
  = Raise metrics_error.
Proof.
  apply (proj1 (proj2 (get_keys_errors (list reply) scripted demo_client
                         (world_of [Answer keys_ok;
                                    Answer (mkResponse 500 None)])
                         keys_ok [Answer (mkResponse 500 None)] eq_refl))
           (mkResponse 500 None) [] eq_refl).
  split.
  - split; [reflexivity|]. eexists; repeat split; reflexivity.
  - left. simpl. lia.
Defined.

Lemma create_key_used_bytes_zero_witness :
  exists k,
    create_key (list reply) scripted demo_client PyNone
      (world_of [Answer created])
    = (Ok k, sent (world_of [Answer created])
               (mkRequest POST (url_access_keys demo_client) NoPayload false)
               []) /\
    used_bytes k = PyInt 0.
Proof.
  apply (proj2 (proj2 (proj2
           (create_key_used_bytes_zero (list reply) scripted demo_client
              PyNone (world_of [Answer created]))))
           created [] _ eq_refl eq_refl eq_refl eq_refl).
Defined.

Lemma create_key_name_witness :
  exists k,
    fst (create_key (list reply) scripted demo_client (PyStr "bob")
           (world_of [Answer created; Answer (mkResponse 500 None)]))
    = Ok k /\
    name k = PyStr "" /\ key_id k = PyStr "7".
Proof.
  destruct (create_key_name (list reply) scripted demo_client (PyStr "bob")
              (world_of [Answer created; Answer (mkResponse 500 None)])
              created [Answer (mkResponse 500 None)] _
              (mkResponse 500 None) []
              eq_refl eq_refl eq_refl eq_refl eq_refl)
    as (k & Hk & _ & Hn & Hi & _).
  exists k. split; [now rewrite Hk|]. split; [|exact Hi].
  apply Hn. discriminate.
Defined.

Lemma set_port_outcomes_witness :
  exists msg,
    fst (set_port_new_for_access_keys (list reply) scripted demo_client
           (PyInt 443) (world_of [Answer (mkResponse 409 None)]))
    = Raise (OutlineServerErrorException msg) /\
    is_substring "already in use" msg = true.
Proof.
  apply (proj1 (proj2
           (set_port_outcomes (list reply) scripted demo_client (PyInt 443)
              (world_of [Answer (mkResponse 409 None)])
              (mkResponse 409 None) [] eq_refl))).
  reflexivity.
Defined.

Lemma toggle_true_iff_204_witness :
  exists b,
    toggle_call (list reply) scripted demo_client (DeleteKey (PyStr "1"))
      (world_of [Answer no_content])
    = (Ok b, sent (world_of [Answer no_content])
               (toggle_request demo_client (DeleteKey (PyStr "1"))) []) /\
    (b = true <-> status_code no_content = 204) /\
    (b = false <-> status_code no_content <> 204).
Proof.
  apply (toggle_true_iff_204 (list reply) scripted demo_client
           (DeleteKey (PyStr "1")) (world_of [Answer no_content])
           no_content [] eq_refl).
Defined.

Lemma init_checks_fingerprint_once_witness :
  init (list reply) (pinned "AB:CD") example_url (Some "ab:ce")
    (world_of [])
  = (Raise CertificateMismatch, mkWorld [] [EvTls example_url]).
Proof.
  apply (proj1 (init_checks_fingerprint_once (list reply) scripted
                  (pinned "AB:CD") demo_client)
           example_url "ab:ce" (world_of [])); discriminate.
Defined.

Lemma transferred_data_as_stated_fails :
  ~ transferred_data_as_stated no_content
      (fst (get_transferred_data (list reply) scripted demo_client
              (world_of [Answer no_content]))).
Proof.
  intros [_ H].
  assert (E : fst (get_transferred_data (list reply) scripted demo_client
                     (world_of [Answer no_content]))
              = Raise metrics_error).
  { apply H. intros [E _]. discriminate E. }
  discriminate E.
Qed.

Lemma get_transferred_data_outcomes_witness :
  fst (get_transferred_data (list reply) scripted demo_client
         (world_of [Answer (mkResponse 203 (Some example_metrics_body))]))
  = Ok example_metrics_body.
Proof.
  apply (proj1 (proj2
           (get_transferred_data_outcomes (list reply) scripted demo_client
              (world_of [Answer (mkResponse 203
                                   (Some example_metrics_body))])
              (mkResponse 203 (Some example_metrics_body)) [] eq_refl))
           example_metrics_body); simpl; [lia | reflexivity | reflexivity].
Defined.

Lemma metrics_status_as_stated_fails :
  ~ metrics_status_as_stated empty_object
      (fst (get_metrics_status (list reply) scripted demo_client
              (world_of [Answer empty_object]))).
Proof.
  intros [_ H].
  destruct H as (e & E).
  - intros (d & B & Hd). injection B as <-. discriminate Hd.
  - discriminate E.
Qed.

Lemma get_metrics_status_outcomes_witness :
  fst (get_metrics_status (list reply) scripted demo_client
         (world_of [Answer empty_object]))
  = Ok PyNone.
Proof.
  apply (proj1 (proj2
           (get_metrics_status_outcomes (list reply) scripted demo_client
              (world_of [Answer empty_object]) empty_object [] eq_refl))
           []); reflexivity.
Defined.

(** C10.  The records of "list keys" carry the identifier, name, password,
    port, method and access URL of their entry as the values the server
    sent; so does the record "create key" constructs from a JSON object,
    and the record it returns is that one, or that one renamed.  Nothing is
    converted or checked: whatever value the object has under [id] is the
    [key_id] of the record. *)
Theorem outline_key_fields_verbatim :
  (forall St transport self (w : world St) result w',
     get_keys St transport self w = (Ok result, w') ->
     exists r1 s1 kd entries,
       transport (server w)
         (mkRequest GET (url_access_keys self) NoPayload false)
         = (Answer r1, s1) /\
       body r1 = Some (PyDict kd) /\
       py_iter (dict_get kd "accessKeys") = Ok entries /\
       Forall2 (fun key k => exists d, key = PyDict d /\ verbatim d k)
         entries result) /\
  (forall d, exists k, created_key (PyDict d) = Ok k /\ verbatim d k) /\
  (forall St transport self key_name (w : world St) k w',
     create_key St transport self key_name w = (Ok k, w') ->
     exists r1 s1 d k0,
       transport (server w)
         (mkRequest POST (url_access_keys self) NoPayload false)
         = (Answer r1, s1) /\
       body r1 = Some (PyDict d) /\
       created_key (PyDict d) = Ok k0 /\ verbatim d k0 /\
       (k = k0 \/ k = set_name k0 key_name)) /\
  (forall St transport self (w : world St) r1 s1 v rest,
     transport (server w)
       (mkRequest POST (url_access_keys self) NoPayload false)
       = (Answer r1, s1) ->
     status_code r1 = 201 ->
     body r1 = Some (PyDict (("id", v) :: rest)) ->
     exists k,
       fst (create_key St transport self PyNone w) = Ok k /\ key_id k = v).
Proof.
  split; [|split; [|split]].
  - intros St transport self w result w' H.
    apply get_keys_ok in H.
    destruct H as (r1 & s1 & r2 & s2 & kd & entries
                   & T1 & _ & _ & B1 & Hi & Hf).
    exists r1, s1, kd, entries. repeat split; auto.
    clear - Hf. induction Hf as [|key k entries result Hk _ IH];
      constructor; auto.
    destruct Hk as (d & mb & by_user & -> & _ & _ & ->).
    exists d. unfold verbatim, key_of_entry; simpl. repeat split; auto.
  - intros d. eexists; split; [reflexivity|].
    unfold verbatim; simpl; repeat split; auto.
  - intros St transport self key_name w k w' H.
    rewrite create_key_run in H.
    destruct (transport (server w) _) as [[r1|] s1] eqn:T1; [|discriminate].
    cbv zeta in H. destruct (status_code r1 =? 201); [|discriminate].
    destruct (rbind (json r1) created_key) as [k0|e] eqn:K; [|discriminate].
    apply rbind_ok in K; destruct K as (v & J & K).
    destruct (created_key_ok v k0 K) as (d & -> & Hk0).
    unfold json in J. destruct (body r1) as [b|] eqn:B1; [|discriminate].
    injection J as ->.
    exists r1, s1, d, k0. repeat split; auto; try (subst k0; reflexivity).
    destruct (py_truthy key_name).
    + destruct (transport s1 _) as [[r2|] s2]; [|discriminate].
      injection H as <- _. destruct (status_code r2 =? 204); auto.
    + injection H as <- _. auto.
  - intros St transport self w r1 s1 v rest T1 E1 B1.
    rewrite create_key_run, T1. cbv zeta.
    apply Z.eqb_eq in E1. rewrite E1. unfold json. rewrite B1.
    eexists; split; reflexivity.
Qed.

Lemma outline_key_fields_verbatim_witness :
  exists k,
    fst (create_key (list reply) scripted demo_client PyNone
           (world_of [Answer created])) = Ok k /\
    key_id k = PyStr "7".
Proof.
  apply (proj2 (proj2 (proj2 outline_key_fields_verbatim))
           (list reply) scripted demo_client (world_of [Answer created])
           created [] (PyStr "7") _ eq_refl eq_refl eq_refl).
Defined.

(** ** Beyond the documented contract *)

Section Coverage.

Variable St : Type.
Variable transport : St -> request -> reply * St.
Variable self : OutlineVPN.

Abbreviation keys_request :=
  (mkRequest GET (url_access_keys self) NoPayload false).
Abbreviation metrics_request :=
  (mkRequest GET (url_metrics_transfer self) NoPayload false).
Abbreviation create_request :=
  (mkRequest POST (url_access_keys self) NoPayload false).
Abbreviation rename_request id new_name :=
  (mkRequest PUT (url_key_name self id) (FilesBody [("name", new_name)])
     false).
Abbreviation server_request :=
  (mkRequest GET (url_server self) NoPayload false).

(** *** The requests of a call *)

Lemma forget_fst : forall A (c : M St A) (w : world St),
  fst (forget St c w) =
  match fst (c w) with
  | Ok _ => Ok tt
  | Raise e => Raise e
  end.
Proof.
  intros A c w; unfold forget, bind, ret.
  destruct (c w) as [[a|e] w']; reflexivity.
Qed.

Lemma perform_trace : forall c (w : world St),
  exists reqs,
    wire (snd (perform St transport self c w))
      = (wire w ++ map EvHttp reqs)%list /\
    call_trace self c reqs.
Proof.
  intros c w. unfold perform.
  destruct c as [t| |key_name| | | |new_port]; rewrite forget_snd.
  - rewrite toggle_call_run.
    destruct (transport (server w) _) as [[r|] s1];
      exists [toggle_request self t]; split; try reflexivity; now left.
  - rewrite get_keys_run.
    destruct (transport (server w) keys_request) as [[r1|] s1];
      [|exists [keys_request]; split; [reflexivity | now left]].
    cbv zeta.
    destruct (keys_check r1) as [[|]|e];
      try (exists [keys_request]; split; [reflexivity | now left]).
    destruct (transport s1 metrics_request) as [[r2|] s2];
      [destruct (metrics_check r2) as [[|]|e]|];
      exists [keys_request; metrics_request];
      (split; [simpl; now rewrite <- app_assoc | now right]).
  - rewrite create_key_run.
    destruct (transport (server w) create_request) as [[r1|] s1];
      [|exists [create_request]; split; [reflexivity | now left]].
    cbv zeta.
    destruct (status_code r1 =? 201);
      [|exists [create_request]; split; [reflexivity | now left]].
    destruct (rbind (json r1) created_key) as [k|e];
      [|exists [create_request]; split; [reflexivity | now left]].
    destruct (py_truthy key_name);
      [|exists [create_request]; split; [reflexivity | now left]].
    destruct (transport s1 (rename_request (key_id k) key_name))
      as [[r2|] s2];
      exists [create_request; rename_request (key_id k) key_name];
      (split; [simpl; now rewrite <- app_assoc
              | right; now exists (key_id k)]).
  - rewrite get_transferred_data_run.
    destruct (transport (server w) _) as [[r|] s1];
      exists [metrics_request]; split; try reflexivity; now left.
  - rewrite get_server_information_run.
    destruct (transport (server w) _) as [[r|] s1];
      exists [server_request]; split; try reflexivity; now left.
  - rewrite get_metrics_status_run.
    destruct (transport (server w) _) as [[r|] s1];
      exists [first_request self GetMetricsStatus];
      (split; [reflexivity | now left]).
  - rewrite set_port_run.
    destruct (transport (server w) _) as [[r|] s1];
      exists [first_request self (SetPortNewForAccessKeys new_port)];
      (split; [reflexivity | now left]).
Qed.

Lemma created_key_raises : forall v e,
  created_key v = Raise e ->
  e = AttributeError /\ forall d, v <> PyDict d.
Proof.
  intros v e H; destruct v; simpl in H; try discriminate;
    injection H as <-; split; auto; discriminate.
Qed.

(** X1.  The calls of [requests] a method makes are exactly those its
    code shows, however the call ends and whatever the server does: its
    one call, then for [get_keys] the call to [GET metrics/transfer],
    made exactly when the keys answer is a 200 whose decoded body contains
    [accessKeys], and for [create_key] the [PUT] that renames, made
    exactly when the answer is a 201 carrying an object and the name is
    true, on the [id] of that object and with that name.  No call is made
    twice.  What the library puts on the wire to answer one call is not
    part of the statement. *)
Theorem calls_made_exactly : forall c (w : world St),
  exists reqs,
    wire (snd (perform St transport self c w))
      = (wire w ++ map EvHttp reqs)%list /\
    call_trace self c reqs /\
    (c = GetKeys ->
       (reqs = [keys_request; metrics_request] <->
        exists r1 s1,
          transport (server w) keys_request = (Answer r1, s1) /\
          status_code r1 = 200 /\
          exists v, body r1 = Some v /\
            py_contains "accessKeys" v = Ok true)) /\
    (forall key_name, c = CreateKey key_name ->
       forall id,
         reqs = [create_request; rename_request id key_name] <->
         exists r1 s1 d,
           transport (server w) create_request = (Answer r1, s1) /\
           status_code r1 = 201 /\
           body r1 = Some (PyDict d) /\
           id = dict_get d "id" /\
           py_truthy key_name = true).
Proof.
  intros c w.
  destruct c as [t| |key_name| | | |new_port];
    try (match goal with
         | |- context [perform _ _ _ ?c w] =>
             destruct (perform_trace c w) as (reqs & Hw & Ht);
             exists reqs;
             (split; [exact Hw | split; [exact Ht | split]]);
             intros; discriminate
         end).
  - (* get_keys *)
    unfold perform. rewrite forget_snd, get_keys_run.
    destruct (transport (server w) keys_request) as [[r1|] s1] eqn:T1.
    + cbv zeta. destruct (keys_check r1) as [[|]|e] eqn:K.
      * exists [keys_request; metrics_request].
        split; [|split; [now right | split; [|intros; discriminate]]].
        -- destruct (transport s1 metrics_request) as [[r2|] s2];
             [destruct (metrics_check r2) as [[|]|e]|];
             simpl; now rewrite <- app_assoc.
        -- intros _. split; auto. intros _.
           exists r1, s1. split; auto. now apply keys_check_true.
      * exists [keys_request].
        split; [reflexivity | split; [now left | split;
                                       [|intros; discriminate]]].
        intros _. split; [discriminate|].
        intros (r1' & s1' & T & H). injection T as <- <-.
        apply keys_check_true in H. congruence.
      * exists [keys_request].
        split; [reflexivity | split; [now left | split;
                                       [|intros; discriminate]]].
        intros _. split; [discriminate|].
        intros (r1' & s1' & T & H). injection T as <- <-.
        apply keys_check_true in H. congruence.
    + exists [keys_request].
      split; [reflexivity | split; [now left | split;
                                     [|intros; discriminate]]].
      intros _. split; [discriminate|].
      intros (r1' & s1' & T & _). discriminate.
  - (* create_key *)
    unfold perform. rewrite forget_snd, create_key_run.
    destruct (transport (server w) create_request) as [[r1|] s1] eqn:T1.
    + cbv zeta.
      destruct (Z.eqb_spec (status_code r1) 201) as [E|E].
      * unfold json. destruct (body r1) as [v|] eqn:B1; simpl.
        -- destruct (created_key v) as [k|e] eqn:Ck.
           ++ apply created_key_ok in Ck. destruct Ck as (d & -> & ->).
              simpl key_id.
              destruct (py_truthy key_name) eqn:Hn.
              ** exists [create_request;
                         rename_request (dict_get d "id") key_name].
                 split; [|split; [right; now exists (dict_get d "id")
                                 | split; [intros; discriminate|]]].
                 --- destruct (transport s1 _) as [[r2|] s2];
                       simpl; now rewrite <- app_assoc.
                 --- intros kn Hc id. injection Hc as <-. split.
                     +++ intros H. injection H as <-.
                         exists r1, s1, d. repeat split; auto.
                     +++ intros (r1' & s1' & d' & T & _ & B & -> & _).
                         injection T as <- <-. rewrite B1 in B.
                         now injection B as <-.
              ** exists [create_request].
                 split; [reflexivity | split; [now left | split;
                                       [intros; discriminate|]]].
                 intros kn Hc id. injection Hc as <-.
                 split; [discriminate|].
                 intros (_ & _ & _ & _ & _ & _ & _ & H). congruence.
           ++ apply created_key_raises in Ck. destruct Ck as (_ & Hv).
              exists [create_request].
              split; [reflexivity | split; [now left | split;
                                    [intros; discriminate|]]].
              intros kn Hc id. split; [discriminate|].
              intros (r1' & s1' & d' & T & _ & B & _).
              injection T as <- <-. rewrite B1 in B. injection B as ->.
              now destruct (Hv d').
        -- exists [create_request].
           split; [reflexivity | split; [now left | split;
                                 [intros; discriminate|]]].
           intros kn Hc id. split; [discriminate|].
           intros (r1' & s1' & d' & T & _ & B & _).
           injection T as <- <-. congruence.
      * exists [create_request].
        split; [reflexivity | split; [now left | split;
                              [intros; discriminate|]]].
        intros kn Hc id. split; [discriminate|].
        intros (r1' & s1' & d' & T & E' & _).
        injection T as <- <-. contradiction.
    + exists [create_request].
      split; [reflexivity | split; [now left | split;
                            [intros; discriminate|]]].
      intros kn Hc id. split; [discriminate|].
      intros (r1' & s1' & d' & T & _). discriminate.
Qed.

(** X2.  Every call of [requests], in every method and however it ends,
    is made with [verify=False]: the client never asks for the
    certificate of the server to be verified. *)
Theorem every_call_unverified : forall c (w : world St),
  exists reqs,
    wire (snd (perform St transport self c w))
      = (wire w ++ map EvHttp reqs)%list /\
    Forall (fun q => req_verify q = false) reqs.
Proof.
  intros c w. destruct (perform_trace c w) as (reqs & Hw & Ht).
  exists reqs. split; [exact Hw|].
  assert (H1 : req_verify (first_request self c) = false)
    by (destruct c as [t| |key_name| | | |new_port];
        [destruct t|..]; reflexivity).
  destruct Ht as [->|Ht]; [repeat constructor; apply H1|].
  destruct c; try contradiction.
  - subst reqs. repeat constructor.
  - destruct Ht as (id & ->). repeat constructor.
Qed.

(** X3.  The four methods that read ([get_keys],
    [get_transferred_data], [get_server_information],
    [get_metrics_status]) only ever send [GET] requests without a
    payload. *)
Theorem read_calls_only_get : forall c (w : world St),
  read_call c = true ->
  exists reqs,
    wire (snd (perform St transport self c w))
      = (wire w ++ map EvHttp reqs)%list /\
    Forall (fun q => req_method q = GET /\ req_payload q = NoPayload) reqs.
Proof.
  intros c w Hr. destruct (perform_trace c w) as (reqs & Hw & Ht).
  exists reqs. split; [exact Hw|].
  destruct c; try discriminate; destruct Ht as [->|Ht];
    try contradiction; try subst reqs; repeat constructor.
Qed.

(** X4.  A failure of the transport on the first request leaves every
    method, the boolean ones included, as [ConnectionError], after that one
    request. *)
Theorem unreachable_propagates : forall c (w : world St) s1,
  transport (server w) (first_request self c) = (Unreachable, s1) ->
  perform St transport self c w
    = (Raise ConnectionError, sent w (first_request self c) s1).
Proof.
  intros c w s1 T.
  rewrite (surjective_pairing (perform St transport self c w)).
  unfold perform.
  destruct c as [t| |key_name| | | |new_port];
    rewrite forget_fst, forget_snd; simpl in T.
  - now rewrite toggle_call_run, T.
  - now rewrite get_keys_run, T.
  - now rewrite create_key_run, T.
  - now rewrite get_transferred_data_run, T.
  - now rewrite get_server_information_run, T.
  - now rewrite get_metrics_status_run, T.
  - now rewrite set_port_run, T.
Qed.

(** *** Server information *)

(** X5.  Given the answer to [GET server], "get server information"
    raises its server error exactly when the status is not 200 (201 and
    the like included), returns the decoded body of a 200 whatever JSON
    value it is, and lets the decoder's error out on a 200 whose body is
    not JSON. *)
Theorem get_server_information_outcomes : forall (w : world St) r s1,
  transport (server w) server_request = (Answer r, s1) ->
  let out := fst (get_server_information St transport self w) in
  (out = Raise (OutlineServerErrorException
                  "Unable to get information about the server")
     <-> status_code r <> 200) /\
  (forall v, status_code r = 200 -> body r = Some v -> out = Ok v) /\
  (status_code r = 200 -> body r = None -> out = Raise JSONDecodeError).
Proof.
  intros w r s1 T out. subst out.
  rewrite get_server_information_run, T. simpl fst. unfold json.
  destruct (Z.eqb_spec (status_code r) 200) as [E|E].
  - split; [|split].
    + split; [|contradiction].
      destruct (body r); discriminate.
    + intros v _ B. now rewrite B.
    + intros _ B. now rewrite B.
  - split; [|split]; try contradiction. split; auto.
Qed.

(** *** Listing keys: what is asked, what comes back *)

(** X6.  When the keys answer does not pass its test, "list keys" ends
    after that one call and the metrics endpoint is not asked: with
    "Unable to retrieve keys" on a status other than 200 or on a 200 whose
    body decodes to an object, array or string that does not contain
    [accessKeys]; with the decoder's error on a 200 whose body is not
    JSON; with [TypeError] on a 200 whose body decodes to [null], a number
    or a boolean. *)
Theorem get_keys_refused_skips_metrics : forall (w : world St) r1 s1,
  transport (server w) keys_request = (Answer r1, s1) ->
  (status_code r1 <> 200 \/
   (exists v, body r1 = Some v /\ is_container v = true /\
      py_contains "accessKeys" v = Ok false) ->
   get_keys St transport self w
     = (Raise keys_error, sent w keys_request s1)) /\
  (status_code r1 = 200 -> body r1 = None ->
   get_keys St transport self w
     = (Raise JSONDecodeError, sent w keys_request s1)) /\
  (forall v, status_code r1 = 200 -> body r1 = Some v ->
   is_container v = false ->
   get_keys St transport self w
     = (Raise TypeError, sent w keys_request s1)).
Proof.
  intros w r1 s1 T. rewrite get_keys_run, T. cbv zeta.
  split; [|split].
  - intros H. rewrite with_container in H.
    apply keys_check_false in H. now rewrite H.
  - intros E B. unfold keys_check, json. rewrite B.
    apply Z.eqb_eq in E. now rewrite E.
  - intros v E B Hv. unfold keys_check, json. rewrite B.
    apply Z.eqb_eq in E. rewrite E. simpl.
    now rewrite (contains_scalar "accessKeys" v Hv).
Qed.

Lemma listed_key_listable : forall rm key k,
  listed_key rm key = Ok k -> listable key.
Proof.
  unfold listed_key, listable; intros rm key k H.
  apply rbind_ok in H; destruct H as (k_id & Hid & H).
  apply py_get_ok in Hid; destruct Hid as (d & -> & ->).
  simpl in H.
  apply rbind_ok in H; destruct H as (mj & _ & H).
  apply rbind_ok in H; destruct H as (bu & _ & H).
  apply rbind_ok in H; destruct H as (used & Hused & _).
  exists d; split; [reflexivity|].
  destruct bu; simpl in Hused; try discriminate.
  destruct (dict_get d "id"); simpl; try reflexivity; discriminate.
Qed.

Lemma listed_key_unlistable : forall rm mb by_user key e,
  body rm = Some (PyDict mb) ->
  dict_get mb "bytesTransferredByUserId" = PyDict by_user ->
  listed_key rm key = Raise e ->
  ~ listable key /\ (e = AttributeError \/ e = TypeError).
Proof.
  intros rm mb by_user key e B Hbu H.
  unfold listed_key, json in H. rewrite B in H.
  destruct key; simpl in H;
    try (injection H as <-; split; [intros (d & Hd & _); discriminate
                                   | now left]).
  rewrite Hbu in H.
  destruct (dict_get d "id") eqn:Ei; simpl in H; try discriminate;
    injection H as <-;
    (split; [|now right]);
    intros (d' & Hd & Hh); injection Hd as <-;
    rewrite Ei in Hh; discriminate.
Qed.

Lemma for_keys_listable : forall rm keys acc res,
  for_keys rm keys acc = Ok res -> Forall listable keys.
Proof.
  intros rm keys; induction keys as [|key rest IH]; intros acc res H.
  - constructor.
  - simpl in H. apply rbind_ok in H; destruct H as (k & Hk & H).
    constructor; [now apply listed_key_listable in Hk | now apply IH in H].
Qed.

Lemma for_keys_unlistable : forall rm mb by_user keys acc e,
  body rm = Some (PyDict mb) ->
  dict_get mb "bytesTransferredByUserId" = PyDict by_user ->
  for_keys rm keys acc = Raise e ->
  e = AttributeError \/ e = TypeError.
Proof.
  intros rm mb by_user keys acc e B Hbu; revert acc.
  induction keys as [|key rest IH]; intros acc H; [discriminate|].
  simpl in H. apply rbind_raises in H. destruct H as [H|(k & _ & H)].
  - now apply (listed_key_unlistable rm mb by_user) in H.
  - now apply IH in H.
Qed.

Lemma for_keys_listable_total : forall rm mb by_user keys acc,
  body rm = Some (PyDict mb) ->
  dict_get mb "bytesTransferredByUserId" = PyDict by_user ->
  Forall listable keys ->
  exists res, for_keys rm keys acc = Ok res.
Proof.
  intros rm mb by_user keys acc B Hbu Hl; revert acc.
  induction Hl as [|key rest (d & -> & Hh) _ IH]; intros acc; simpl.
  - eauto.
  - rewrite (listed_key_total rm mb by_user d B Hbu Hh). simpl. apply IH.
Qed.

Lemma dict_get_present : forall d k,
  dict_get d k <> PyNone -> dict_has d k = true.
Proof.
  intros d k H. destruct (dict_has d k) eqn:E; auto.
  now apply dict_get_missing in E.
Qed.

(** X7.  With both answers in their expected shape (a 200 whose object
    holds a list under [accessKeys]; a metrics answer below 400 whose
    object holds an object under [bytesTransferredByUserId]), "list keys"
    returns a list if and only if every entry is an object whose [id] is
    not a list or an object.  One entry that is not makes the whole call
    raise [AttributeError] or [TypeError]: no partial list comes back. *)
Theorem get_keys_returns_iff_listable :
  forall (w : world St) r1 s1 r2 s2 kd entries mb by_user,
  transport (server w) keys_request = (Answer r1, s1) ->
  transport s1 metrics_request = (Answer r2, s2) ->
  status_code r1 = 200 ->
  body r1 = Some (PyDict kd) ->
  dict_get kd "accessKeys" = PyList entries ->
  status_code r2 < 400 ->
  body r2 = Some (PyDict mb) ->
  dict_get mb "bytesTransferredByUserId" = PyDict by_user ->
  ((exists result, fst (get_keys St transport self w) = Ok result)
     <-> Forall listable entries) /\
  (forall e, fst (get_keys St transport self w) = Raise e ->
     e = AttributeError \/ e = TypeError).
Proof.
  intros w r1 s1 r2 s2 kd entries mb by_user T1 T2 E1 B1 Hl E2 B2 Hbu.
  assert (K : keys_check r1 = Ok true).
  { apply keys_check_true; split; auto.
    exists (PyDict kd); split; auto. simpl. f_equal.
    apply dict_get_present. rewrite Hl. discriminate. }
  assert (Mc : metrics_check r2 = Ok false).
  { apply metrics_check_false; split; auto.
    exists (PyDict mb); split; auto. simpl. f_equal.
    apply dict_get_present. rewrite Hbu. discriminate. }
  rewrite get_keys_run, T1. cbv zeta. rewrite K, T2. cbv zeta. rewrite Mc.
  simpl fst. unfold collect_keys, json. rewrite B1. simpl. rewrite Hl. simpl.
  split; [split|].
  - intros (result & H). now apply for_keys_listable in H.
  - intros H. now apply (for_keys_listable_total r2 mb by_user).
  - intros e H. now apply (for_keys_unlistable r2 mb by_user) in H.
Qed.


(** X9.  The bytes are joined by exact string key: a returned key whose
    identifier is not a string (an integer, as the dataclass declares it,
    or [None] when the entry has no [id]) has no [used_bytes], whatever
    the metrics mapping holds. *)
Theorem non_string_id_never_joins : forall (w : world St) result w',
  get_keys St transport self w = (Ok result, w') ->
  Forall (fun k => (forall s, key_id k <> PyStr s) -> used_bytes k = PyNone)
    result.
Proof.
  intros w result w' H. apply get_keys_ok in H.
  destruct H as (r1 & s1 & r2 & s2 & kd & entries & _ & _ & _ & _ & _ & Hf).
  induction Hf as [|key k entries result Hk _ IH]; constructor; auto.
  destruct Hk as (d & mb & by_user & _ & _ & _ & ->).
  unfold key_of_entry; simpl. intros Hs.
  destruct (dict_get d "id"); try reflexivity. now destruct (Hs s).
Qed.

(** *** The metrics test is one test *)

(** X10.  "List keys" and "get transferred data" judge a metrics answer
    alike: against the same answer, one raises "Unable to get metrics" if
    and only if the other does, and whenever "list keys" returns a list,
    "get transferred data" returns the decoded body. *)
Theorem metrics_tests_agree : forall (wk w : world St) r1 s1 r2 s2 s3 v1,
  transport (server wk) keys_request = (Answer r1, s1) ->
  status_code r1 = 200 ->
  body r1 = Some v1 ->
  py_contains "accessKeys" v1 = Ok true ->
  transport s1 metrics_request = (Answer r2, s2) ->
  transport (server w) metrics_request = (Answer r2, s3) ->
  (fst (get_keys St transport self wk) = Raise metrics_error <->
   fst (get_transferred_data St transport self w) = Raise metrics_error) /\
  (forall result,
     fst (get_keys St transport self wk) = Ok result ->
     exists v, body r2 = Some v /\
       fst (get_transferred_data St transport self w) = Ok v).
Proof.
  intros wk w r1 s1 r2 s2 s3 v1 T1 E1 B1 C1 T2 T3.
  assert (K : keys_check r1 = Ok true)
    by (apply keys_check_true; eauto).
  rewrite get_keys_run, T1. cbv zeta. rewrite K, T2. cbv zeta.
  rewrite get_transferred_data_run, T3. simpl fst.
  destruct (metrics_check r2) as [[|]|e] eqn:Mc; simpl.
  - split; [tauto | discriminate].
  - split.
    + split; intros H.
      * apply collect_keys_raises in H.
        now apply dynamic_error_not_server in H.
      * apply json_raises in H. now apply dynamic_error_not_server in H.
    + intros result _. apply metrics_check_false in Mc.
      destruct Mc as (_ & v & B & _). exists v. split; auto.
      unfold json. now rewrite B.
  - split; [|discriminate].
    apply metrics_check_raises in Mc.
    split; intros H; injection H as ->;
      now apply dynamic_error_not_server in Mc.
Qed.

(** *** Creating a key: the ways to fail, and the rename *)

(** X11.  Given the answer to [POST access-keys], "create key" raises
    "Unable to create key" exactly when the status is not 201.  On a 201
    the key exists on the server, and the call can still fail without
    giving it back: with the decoder's error on a body that is not JSON,
    with [AttributeError] on a JSON body that is not an object, and with
    [ConnectionError] when the transport fails on the rename. *)
Theorem create_key_failures : forall key_name (w : world St) r1 s1,
  transport (server w) create_request = (Answer r1, s1) ->
  (fst (create_key St transport self key_name w) = Raise create_error
     <-> status_code r1 <> 201) /\
  (status_code r1 = 201 -> body r1 = None ->
     create_key St transport self key_name w
       = (Raise JSONDecodeError, sent w create_request s1)) /\
  (forall v, status_code r1 = 201 -> body r1 = Some v ->
     (forall d, v <> PyDict d) ->
     create_key St transport self key_name w
       = (Raise AttributeError, sent w create_request s1)) /\
  (forall d s2, status_code r1 = 201 -> body r1 = Some (PyDict d) ->
     py_truthy key_name = true ->
     transport s1 (rename_request (dict_get d "id") key_name)
       = (Unreachable, s2) ->
     create_key St transport self key_name w
       = (Raise ConnectionError,
          sent (sent w create_request s1)
            (rename_request (dict_get d "id") key_name) s2)).
Proof.
  intros key_name w r1 s1 T. rewrite create_key_run, T. cbv zeta.
  destruct (Z.eqb_spec (status_code r1) 201) as [E|E].
  - split; [|split; [|split]].
    + split; [|contradiction]. intros H. exfalso.
      destruct (rbind (json r1) created_key) as [k|e] eqn:K.
      * destruct (py_truthy key_name); [|discriminate].
        destruct (transport s1 _) as [[r2|] s2]; discriminate.
      * simpl in H. injection H as ->.
        apply rbind_raises in K. destruct K as [K|(v & _ & K)].
        -- apply json_raises in K.
           now apply dynamic_error_not_server in K.
        -- apply created_key_raises in K. destruct K; discriminate.
    + intros _ B. unfold json. now rewrite B.
    + intros v _ B Hv. unfold json. rewrite B. simpl.
      destruct v; try reflexivity. now destruct (Hv d).
    + intros d s2 _ B Hn T2. unfold json. rewrite B. simpl.
      now rewrite Hn, T2.
  - split; [|split; [|split]]; try (intros; contradiction).
    split; auto.
Qed.

(** X12.  "Create key" with a name is "create key" without one followed
    by "rename key" on the identifier that came back, the name of the
    record being replaced when the rename says [True]: the same requests,
    the same result, the same exceptions, whatever the server does.  A
    name that is empty or otherwise false is no name. *)
Theorem create_key_is_create_then_rename : forall key_name (w : world St),
  (py_truthy key_name = true ->
   create_key St transport self key_name w
   = bind St (create_key St transport self PyNone) (fun k0 =>
     bind St (rename_key St transport self (key_id k0) key_name)
       (fun renamed =>
        ret St (if renamed then set_name k0 key_name else k0))) w) /\
  (py_truthy key_name = false ->
   create_key St transport self key_name w
   = create_key St transport self PyNone w).
Proof.
  intros key_name w. split; intros Hn.
  - unfold bind at 1. rewrite !create_key_run. simpl py_truthy. rewrite Hn.
    destruct (transport (server w) create_request) as [[r1|] s1];
      [|reflexivity].
    cbv zeta. destruct (status_code r1 =? 201); [|reflexivity].
    destruct (rbind (json r1) created_key) as [k|e]; [|reflexivity].
    unfold rename_key, requests_put, bind, ret. rewrite send_eq.
    simpl server.
    destruct (transport s1 (rename_request (key_id k) key_name))
      as [[r2|] s2]; reflexivity.
  - rewrite !create_key_run. simpl py_truthy. now rewrite Hn.
Qed.

End Coverage.

(** *** The statements above at work *)

Lemma calls_made_exactly_witness :
  exists reqs,
    wire (snd (perform (list reply) scripted demo_client GetKeys
                 (world_of [Answer keys_ok; Answer metrics_ok])))
      = ([] ++ map EvHttp reqs)%list /\
    reqs = [mkRequest GET (url_access_keys demo_client) NoPayload false;
            mkRequest GET (url_metrics_transfer demo_client) NoPayload
              false].
Proof.
  destruct (calls_made_exactly (list reply) scripted demo_client GetKeys
              (world_of [Answer keys_ok; Answer metrics_ok]))
    as (reqs & Hw & _ & Hg & _).
  exists reqs. split; [exact Hw|].
  apply (Hg eq_refl).
  exists keys_ok, [Answer metrics_ok].
  split; [reflexivity|]. split; [reflexivity|].
  eexists; split; reflexivity.
Defined.

Lemma read_calls_only_get_witness :
  exists reqs,
    wire (snd (perform (list reply) scripted demo_client GetKeys
                 (world_of [Answer keys_ok; Answer metrics_ok])))
      = ([] ++ map EvHttp reqs)%list /\
    Forall (fun q => req_method q = GET /\ req_payload q = NoPayload) reqs.
Proof.
  apply (read_calls_only_get (list reply) scripted demo_client GetKeys
           (world_of [Answer keys_ok; Answer metrics_ok]) eq_refl).
Defined.

Lemma unreachable_propagates_witness :
  perform (list reply) scripted demo_client
    (Toggle (DeleteKey (PyStr "1"))) (world_of [])
  = (Raise ConnectionError,
     sent (world_of [])
       (first_request demo_client (Toggle (DeleteKey (PyStr "1")))) []).
Proof.
  apply (unreachable_propagates (list reply) scripted demo_client
           (Toggle (DeleteKey (PyStr "1"))) (world_of []) [] eq_refl).
Defined.

Lemma get_server_information_outcomes_witness :
  fst (get_server_information (list reply) scripted demo_client
         (world_of [Answer server_info]))
  = Ok (PyDict [("name", PyStr "My Server");
                ("portForNewAccessKeys", PyInt 1234)]).
Proof.
  apply (proj1 (proj2
           (get_server_information_outcomes (list reply) scripted
              demo_client (world_of [Answer server_info]) server_info []
              eq_refl))); reflexivity.
Defined.

Lemma get_keys_refused_skips_metrics_witness :
  get_keys (list reply) scripted demo_client
    (world_of [Answer (mkResponse 200 (Some PyNone)); Answer metrics_ok])
  = (Raise TypeError,
     sent (world_of [Answer (mkResponse 200 (Some PyNone));
                     Answer metrics_ok])
       (mkRequest GET (url_access_keys demo_client) NoPayload false)
       [Answer metrics_ok]).
Proof.
  apply (proj2 (proj2
           (get_keys_refused_skips_metrics (list reply) scripted
              demo_client
              (world_of [Answer (mkResponse 200 (Some PyNone));
                         Answer metrics_ok])
              (mkResponse 200 (Some PyNone)) [Answer metrics_ok] eq_refl))
           PyNone); reflexivity.
Defined.

Lemma get_keys_returns_iff_listable_witness :
  exists result,
    fst (get_keys (list reply) scripted demo_client
           (world_of [Answer keys_ok; Answer metrics_ok])) = Ok result.
Proof.
  edestruct (get_keys_returns_iff_listable (list reply) scripted
               demo_client (world_of [Answer keys_ok; Answer metrics_ok]))
    as [[_ H] _];
    try reflexivity.
  apply H. repeat constructor. eexists; split; reflexivity.
Defined.


Lemma non_string_id_never_joins_witness :
  exists result,
    fst (get_keys (list reply) scripted demo_client
           (world_of [Answer numeric_id_keys; Answer metrics_ok]))
      = Ok result /\
    Forall (fun k => (forall s, key_id k <> PyStr s) ->
                     used_bytes k = PyNone) result.
Proof.
  eexists; split; [reflexivity|].
  apply (non_string_id_never_joins (list reply) scripted demo_client
           (world_of [Answer numeric_id_keys; Answer metrics_ok])
           _ _ eq_refl).
Defined.

Lemma metrics_tests_agree_witness :
  fst (get_transferred_data (list reply) scripted demo_client
         (world_of [Answer (mkResponse 500 None)]))
  = Raise metrics_error.
Proof.
  apply (proj1 (proj1
           (metrics_tests_agree (list reply) scripted demo_client
              (world_of [Answer keys_ok; Answer (mkResponse 500 None)])
              (world_of [Answer (mkResponse 500 None)])
              keys_ok [Answer (mkResponse 500 None)]
              (mkResponse 500 None) [] [] _
              eq_refl eq_refl eq_refl eq_refl eq_refl eq_refl))).
  reflexivity.
Defined.

Lemma create_key_failures_witness :
  create_key (list reply) scripted demo_client (PyStr "bob")
    (world_of [Answer (mkResponse 201 None)])
  = (Raise JSONDecodeError,
     sent (world_of [Answer (mkResponse 201 None)])
       (mkRequest POST (url_access_keys demo_client) NoPayload false) []).
Proof.
  apply (proj1 (proj2
           (create_key_failures (list reply) scripted demo_client
              (PyStr "bob") (world_of [Answer (mkResponse 201 None)])
              (mkResponse 201 None) [] eq_refl))); reflexivity.
Defined.

Lemma create_key_is_create_then_rename_witness :
  create_key (list reply) scripted demo_client (PyStr "bob")
    (world_of [Answer created; Answer no_content])
  = bind (list reply)
      (create_key (list reply) scripted demo_client PyNone) (fun k0 =>
    bind (list reply)
      (rename_key (list reply) scripted demo_client (key_id k0)
         (PyStr "bob"))
      (fun renamed =>
       ret (list reply)
         (if renamed then set_name k0 (PyStr "bob") else k0)))
      (world_of [Answer created; Answer no_content]).
Proof.
  apply (proj1 (create_key_is_create_then_rename (list reply) scripted
                  demo_client (PyStr "bob")
                  (world_of [Answer created; Answer no_content]))).
  reflexivity.
Defined.
